(* ===== verification/_CoqProject ===== *)
-Q . S2P
Prelude.v
PyStr.v
StatusReader.v
Json.v
FieldMapper.v
PollLoop.v
Broker.v
Setup.v
Main.v
LoopTree.v
