(* ===== verification/Prelude.v ===== *)
(** * ha-ups-mqtt: a verification development of [src/ha-ups-mqtt.py]

    The program is a bridge between Network UPS Tools and Home Assistant.
    [main] reads the configuration, builds the device dict, connects an
    MQTT client, and then loops forever: it runs [upsc <ups>] and parses
    its [key: value] lines into a dict ([read_ups]); for every configured
    sensor whose key is present it builds the discovery payload
    ([build_payload]), publishes it retained on
    [homeassistant/sensor/<id>/config], and publishes the value retained
    on [<base_topic>/<id>/state] only when it differs from the value
    remembered in the dict [last_values]; then it sleeps [poll_interval]
    seconds.  All of it lives in one Python file; the development models
    it component by component, one file each, in the order of the calls.

    ** Files and what they model

    - [Prelude] (this file): the Python exceptions the model keeps apart
      ([KeyError], [ValueError], [OSError], [FileNotFoundError],
      [YAMLError], [TypeError], [OverflowError]), the dict lookup [getitem],
      the result monad [py_result] with its notation [let!], the
      writer-error monad [logged] (events emitted in order, then a value
      or an exception) with its notation [let+], its loop [lfoldl] (a
      Python [for] loop whose body may raise) and [lmap]; the invariant
      lemmas [lfoldl_Forall], [lfoldl_inv], [lfoldl_returns],
      [lfoldl_length]; [emits_only] with the hint database [logged]; the
      hint databases [pystr] and [pystr_rw] and the lemmas on strings
      the components share.
    - [PyStr] (Module [PyStr]): the [str] builtins the program calls, on
      code points below 256 (Rocq's [ascii]): [str.strip], [str.lower],
      one-character [str.replace], ['c' in s], [s.split(sep, 1)] and
      [str.splitlines].  They are library code, modelled from CPython's
      behaviour for this range; they are helpers of the components that
      call them, not code of the repository, and are not mapped.
    - [StatusReader]: [read_ups] (lines 15-25) on the result of
      [subprocess.run] (an input: an [OSError], or a return code and the
      standard output), into a [gmap string string].
    - [Json]: helpers, not code of the repository: the JSON values
      [json.dumps] receives (line 102), CPython's encoder with its default
      separators and [ensure_ascii] escaping, and a JSON reader that
      states what a subscriber of the broker reads back.
    - [FieldMapper]: the sensor configuration, the device dict, the
      entity id, the two topic builders and [build_payload] (lines 27-57)
      with its three [KeyError] paths and the payload dict in insertion
      order.
    - [PollLoop]: the [while True] loop of [main] (lines 86-109) as a
      [logged] computation.  [process_sensor] is the body of the
      [for sensor] loop, [poll_cycle] one poll, [loop_iteration] one turn
      with its [time.sleep], [main_loop] a run from [last_values = {}],
      one turn per result of [upsc] in a list.  [loop_config] holds the
      entries the loop reads lazily ([base_topic] and [sensors] are
      [option]s, looked up where the code reads them), and
      [poll_interval] is [ups_conf.get("poll_interval", 30)].  The two
      library calls of the loop are unmapped helpers: [mqtt_publish] is
      paho's [client.publish] with its topic check (an empty topic or one
      containing [+] or [#] raises [ValueError]), and [time_sleep] is
      CPython's [time.sleep] (its argument conversion [sleep_arg] and its
      checks [sleep]).  [dedup_spec] is the abstract change tracker the
      loop refines.
    - [Broker]: what a hub subscribed to the broker reads of the messages
      of one sensor.
    - [Setup]: [load_config] (lines 9-13) on the file [config.yaml],
      an input ([config_file]: absent, not YAML, or a parsed document),
      and the start of [main] (lines 59-84): the configuration sections
      with their [KeyError]s ([TypeError] when the document is not a
      mapping), the device dict and the client calls in order
      (creation, credentials, connect, [loop_start]).  What the network
      answers to [client.connect] is an input ([connect_run]): the call
      returns, or raises [OSError], which nothing catches.
    - [Main]: [main] as a whole, [main_setup] (lines 60-89: the
      configuration file, the start of [Setup] and [ups_conf["name"]])
      followed by the loop of [PollLoop] on the configuration it read;
      its trace is the client calls, then the loop's events.
    - [LoopTree]: the [while True] loop as an interaction tree that runs
      forever ([ITree.iter] over [while_body], whose turn replays
      [loop_iteration]), talking to the world through the events [Upsc],
      [Emit] and [Raise].

    ** What the theorems show

    - change tracker: one sensor publishes its discovery message and
      then its state exactly when the value changed, and records it;
      over any run the state values published for a sensor are those of
      [dedup_spec] on the values its key took (refinement); after any
      run every entry of [last_values] is the retained message of its
      state topic (invariant by [lfoldl_inv]); every message of a poll
      belongs to a sensor whose key is present, and a poll sends at most
      two messages per sensor.
    - what a subscriber reads: the discovery payload, read back as JSON,
      names the topic it came on and the topic of the sensor's following
      state messages.
    - the loop forever: under a well-formed configuration the loop never
      raises and sleeps infinitely often, whatever [upsc] prints
      (liveness, a Paco predicate whose every step is an inductive run to
      the next [time.sleep]).
    - status reader: the functional behaviour on every branch (return
      code, colon test, split, strip), the round trip of rendering and
      parsing a dict, and that parsed keys are stripped and colon-free.
    - field mapper: the payload dict and its three [KeyError]s, the
      injectivity of the entity id on keys without [_], and the collision
      of every key with a [.] with the key that has [_] in its place.
    - start of [main]: the client calls in order and the device dict;
      a start that raises never connects; an unreachable broker ends
      [main] at [client.connect]; a missing, empty or non-mapping
      [config.yaml] ends it before any client call; a configuration
      without [sensors] connects and then crashes at the first poll, one
      without [base_topic] runs connected and silent.
    - errors of the loop: a failed [upsc] publishes nothing for that
      poll, a missing [upsc] ends the loop, a device name with [#] or [+]
      makes the first publish raise; a [poll_interval] that is negative,
      beyond the 64-bit nanosecond range of [time.sleep], empty ([None])
      or quoted passes startup and ends the loop after the first poll
      with [ValueError], [OverflowError] or [TypeError].

    ** Not modelled

    The YAML parser behind [yaml.safe_load], the MQTT network and broker
    and the [upsc] process are external: the model takes their results
    as inputs ([config_file] with its parsed [config] records,
    [connect_run], [upsc_run], the answers of [Upsc]).  The sections of
    a parsed mapping are taken to be mappings themselves (an [mqtt:] or
    [ups:] section left empty loads as [None] and is not modelled).
    paho's limits on topic and payload sizes are not modelled, nor the
    arguments [protocol] and [callback_api_version] of [mqtt.Client],
    which only select the client's behaviour, nor what paho does with a
    publish while the connection is down: the code ignores the result of
    [client.publish].  YAML scalars other than strings are outside the
    model, except the [null] of the optional display fields of a sensor
    and the value of [poll_interval] (an integer, a boolean, [null] or a
    string); a float interval is not modelled, since the events carry
    whole seconds.  Strings are sequences of code points below 256.  The
    [str] builtins of [PyStr], [json.dumps], paho's topic check and
    [time.sleep] are library code, modelled from their behaviour as
    helpers and not mapped to the repository's code.

    ** Bounds and fuel

    [main_loop] and [main] run one turn per element of a list of [upsc]
    results, so every theorem about runs holds for runs of every length;
    [main_loop_tree] is the loop without a bound, and its liveness is a
    coinductive property of the whole infinite tree.  The JSON reader
    [json_loads] takes the length of the text as fuel, which
    [json_need_length] shows is enough.  The integers are [Z], as
    Python's are; the one machine width the program meets, the 64-bit
    nanoseconds of [time.sleep], is written out in [PollLoop.sleep]. *)

From stdpp Require Export base list gmap strings.
From Stdlib Require Export String Ascii Lia.

Declare Scope py_scope.
Delimit Scope py_scope with py.

Create HintDb pystr.
Create Rewrite HintDb pystr_rw.

(** ** Python runtime errors and the result monad *)

(** The exceptions the program can raise that the model keeps apart. *)
Inductive py_error :=
| KeyError (k : string)
| ValueError (msg : string)
| OSError (msg : string)
| FileNotFoundError (path : string)   (* open() of a missing file *)
| YAMLError (msg : string)            (* yaml.safe_load on text that is not YAML *)
| TypeError (type_name : string)      (* an object of this type where another is needed *)
| OverflowError (msg : string).       (* an integer too large for a C type *)

#[export] Instance py_error_eq_dec : EqDecision py_error.
Proof. solve_decision. Qed.

Definition py_result (A : Type) : Type := (py_error + A)%type.

Definition py_ret {A} (x : A) : py_result A := inr x.

Definition py_bind {A B} (c : py_result A) (k : A -> py_result B) : py_result B :=
  match c with
  | inl e => inl e
  | inr x => k x
  end.

(** [d[k]] on a dict whose entry [k] is [v]: [KeyError] when absent. *)
Definition getitem {A} (k : string) (v : option A) : py_result A :=
  match v with Some x => inr x | None => inl (KeyError k) end.

Notation "'let!' x ':=' c 'in' k" := (py_bind c (fun x => k))
  (at level 100, x name, c at level 100, k at level 200, right associativity) : py_scope.

Lemma py_bind_inr {A B} (x : A) (k : A -> py_result B) :
  py_bind (inr x) k = k x.
Proof. reflexivity. Qed.

Lemma py_bind_inl {A B} (e : py_error) (k : A -> py_result B) :
  py_bind (inl e) k = inl e.
Proof. reflexivity. Qed.

Lemma py_bind_inr_inv {A B} (c : py_result A) (k : A -> py_result B) y :
  py_bind c k = inr y -> exists x, c = inr x /\ k x = inr y.
Proof. destruct c; simpl; [discriminate | eauto]. Qed.

#[export] Hint Rewrite @py_bind_inr @py_bind_inl : pystr_rw.

(** ** Effects of the poll loop: a log of emitted events and an error

    A computation of type [logged L A] emits the events of its list, in
    order, and then either returns a value or raises.  Events emitted
    before an exception stay emitted, as messages handed to the MQTT
    client do. *)

Definition logged (L A : Type) : Type := (list L * py_result A)%type.

Definition lret {L A} (x : A) : logged L A := ([], inr x).
Definition lraise {L A} (e : py_error) : logged L A := ([], inl e).
Definition lemit {L} (evs : list L) : logged L unit := (evs, inr tt).

Definition lbind {L A B} (c : logged L A) (k : A -> logged L B) : logged L B :=
  match c with
  | (evs, inl e) => (evs, inl e)
  | (evs, inr x) => let '(evs', r) := k x in (evs ++ evs', r)
  end.

(** Lift a result: raise its error or return its value. *)
Definition lresult {L A} (r : py_result A) : logged L A :=
  match r with inl e => lraise e | inr x => lret x end.

Notation "'let+' x ':=' c 'in' k" := (lbind c (fun x => k))
  (at level 100, x name, c at level 100, k at level 200, right associativity) : py_scope.

(** A [for] loop threading an accumulator. *)
Fixpoint lfoldl {L A B} (f : A -> B -> logged L A) (acc : A) (l : list B) : logged L A :=
  match l with
  | [] => lret acc
  | x :: r => lbind (f acc x) (fun acc' => lfoldl f acc' r)
  end.

Lemma lbind_ret_l {L A B} (x : A) (k : A -> logged L B) : lbind (lret x) k = k x.
Proof. unfold lbind, lret. simpl. by destruct (k x). Qed.

Lemma lbind_emit {L B} (evs : list L) (k : unit -> logged L B) :
  lbind (lemit evs) k = (evs ++ (k tt).1, (k tt).2).
Proof. unfold lbind, lemit. by destruct (k tt). Qed.

Lemma lbind_assoc {L A B C} (c : logged L A) (k1 : A -> logged L B) (k2 : B -> logged L C) :
  lbind (lbind c k1) k2 = lbind c (fun x => lbind (k1 x) k2).
Proof.
  destruct c as [evs [e|x]]; simpl; [done|].
  destruct (k1 x) as [evs1 [e|y]]; simpl; [done|].
  destruct (k2 y) as [evs2 r]. by rewrite app_assoc.
Qed.

(** The events of a bind, when the first part returns. *)
Lemma lbind_inr {L A B} (c : logged L A) (k : A -> logged L B) evs x :
  c = (evs, inr x) -> lbind c k = (evs ++ (k x).1, (k x).2).
Proof. intros ->. simpl. by destruct (k x). Qed.

Lemma lbind_inr_inv {L A B} (c : logged L A) (k : A -> logged L B) evs y :
  lbind c k = (evs, inr y) ->
  exists evs1 x evs2, c = (evs1, inr x) /\ k x = (evs2, inr y) /\ evs = evs1 ++ evs2.
Proof.
  destruct c as [evs1 [e|x]]; simpl; [discriminate|].
  destruct (k x) as [evs2 r] eqn:E. intros H; injection H as <- ->. eauto 7.
Qed.

#[export] Hint Rewrite @lbind_ret_l @lbind_emit @lbind_assoc : pystr_rw.

(** Every outcome of a bind: the first part raised, or it returned and
    the continuation ran. *)
Lemma lbind_cases {L A B} (c : logged L A) (k : A -> logged L B) evs r :
  lbind c k = (evs, r) ->
  (exists e, c = (evs, inl e) /\ r = inl e) \/
  (exists evs1 x evs2, c = (evs1, inr x) /\ k x = (evs2, r) /\ evs = evs1 ++ evs2).
Proof.
  destruct c as [evs1 [e|x]]; simpl.
  - intros [= -> <-]. left; eauto.
  - destruct (k x) as [evs2 r'] eqn:E. intros [= <- ->]. right; eauto 7.
Qed.

(** A property of every event a loop emits, raised or not. *)
Lemma lfoldl_Forall {L A B} (Q : L -> Prop) (f : A -> B -> logged L A) (acc : A) (l : list B) evs r :
  (forall acc x evs' r', x ∈ l -> f acc x = (evs', r') -> Forall Q evs') ->
  lfoldl f acc l = (evs, r) -> Forall Q evs.
Proof.
  revert acc evs. induction l as [|x l IH]; intros acc evs Hf; simpl.
  - by intros [= <- _].
  - intros [(e & Hx & _)|(evs1 & acc' & evs2 & Hx & Hrest & ->)]%lbind_cases.
    + eapply Hf; [by left | done].
    + apply Forall_app; split; [eapply Hf; [by left | done]|].
      eapply IH; [|done]. intros; eapply Hf; [by right | done].
Qed.

Lemma lbind_ext {L A B} (c : logged L A) (k1 k2 : A -> logged L B) :
  (forall x, k1 x = k2 x) -> lbind c k1 = lbind c k2.
Proof. intros H. destruct c as [evs [e|x]]; simpl; [done|]. by rewrite H. Qed.

Lemma lfoldl_app {L A B} (f : A -> B -> logged L A) (acc : A) (l1 l2 : list B) :
  lfoldl f acc (l1 ++ l2) = lbind (lfoldl f acc l1) (fun acc' => lfoldl f acc' l2).
Proof.
  revert acc. induction l1 as [|x l1 IH]; intros acc; cbn [app lfoldl].
  - by rewrite lbind_ret_l.
  - rewrite lbind_assoc. apply lbind_ext. intros y. apply IH.
Qed.

(** An invariant of the events so far and the accumulator, preserved by
    every iteration that returns, holds when the loop returns. *)
Lemma lfoldl_inv {L A B} (P : list L -> A -> Prop) (f : A -> B -> logged L A)
    (tr : list L) (acc : A) (l : list B) evs r :
  (forall tr acc x evs' acc', P tr acc -> x ∈ l -> f acc x = (evs', inr acc') -> P (tr ++ evs') acc') ->
  P tr acc -> lfoldl f acc l = (evs, inr r) -> P (tr ++ evs) r.
Proof.
  revert tr acc evs. induction l as [|x l IH]; intros tr acc evs Hf Hp; simpl.
  - intros [= <- <-]. by rewrite app_nil_r.
  - intros [(e & _ & [=])|(evs1 & acc' & evs2 & Hx & Hrest & ->)]%lbind_cases.
    rewrite app_assoc. eapply IH; [| |done].
    + intros; eapply Hf; eauto. by right.
    + eapply Hf; [done | by left | done].
Qed.

(** The events of [c], seen through [f]: how a component's events are
    embedded in a larger program's. *)
Definition lmap {L M A} (f : L -> M) (c : logged L A) : logged M A := (map f c.1, c.2).

Lemma lbind_lmap_inr {L M A B} (f : L -> M) (c : logged L A) (k : A -> logged M B) evs x :
  c = (evs, inr x) -> lbind (lmap f c) k = ((map f evs ++ (k x).1)%list, (k x).2).
Proof. intros ->. cbn. by destruct (k x). Qed.

Lemma lbind_lmap_inl {L M A B} (f : L -> M) (c : logged L A) (k : A -> logged M B) evs e :
  c = (evs, inl e) -> lbind (lmap f c) k = (map f evs, inl e).
Proof. by intros ->. Qed.

(** ** What a computation hands to the outside world

    [emits_only Q c]: every event [c] emits satisfies [Q], whether [c]
    returns or raises.  The lemmas below follow the structure of a
    [logged] program; the hint database [logged] collects them. *)
Definition emits_only {L A} (Q : L -> Prop) (c : logged L A) : Prop := Forall Q c.1.

Create HintDb logged.

Lemma emits_only_ret {L A} (Q : L -> Prop) (x : A) : emits_only Q (lret x).
Proof. constructor. Qed.

Lemma emits_only_raise {L A} (Q : L -> Prop) (e : py_error) : emits_only Q (lraise (A:=A) e).
Proof. constructor. Qed.

Lemma emits_only_result {L A} (Q : L -> Prop) (r : py_result A) : emits_only Q (lresult (L:=L) r).
Proof. destruct r; constructor. Qed.

Lemma emits_only_bind {L A B} (Q : L -> Prop) (c : logged L A) (k : A -> logged L B) :
  emits_only Q c -> (forall x, emits_only Q (k x)) -> emits_only Q (lbind c k).
Proof.
  unfold emits_only. destruct c as [evs [e|x]]; simpl; [done|].
  intros Hc Hk. specialize (Hk x). destruct (k x) as [evs' r]. simpl in *. by apply Forall_app.
Qed.

Lemma emits_only_foldl {L A B} (Q : L -> Prop) (f : A -> B -> logged L A) (acc : A) (l : list B) :
  (forall acc x, emits_only Q (f acc x)) -> emits_only Q (lfoldl f acc l).
Proof.
  intros Hf. revert acc. induction l as [|x l IH]; intros acc; simpl;
    [apply emits_only_ret | apply emits_only_bind; auto].
Qed.

#[export] Hint Resolve emits_only_ret emits_only_raise emits_only_result emits_only_bind
  emits_only_foldl : logged.

(** A loop whose every iteration returns returns. *)
Lemma lfoldl_returns {L A B} (f : A -> B -> logged L A) (acc : A) (l : list B) :
  (forall acc x, x ∈ l -> exists evs acc', f acc x = (evs, inr acc')) ->
  exists evs r, lfoldl f acc l = (evs, inr r).
Proof.
  revert acc. induction l as [|x l IH]; intros acc Hf; simpl; [by eexists [], acc|].
  destruct (Hf acc x) as (evs1 & acc' & H1); [by left|].
  destruct (IH acc') as (evs2 & r & H2); [intros; apply Hf; by right|].
  exists (evs1 ++ evs2), r. by rewrite H1; simpl; rewrite H2.
Qed.

(** A loop whose iterations emit at most [n] events each emits at most
    [n] events per element, whether it raises or not. *)
Lemma lfoldl_length {L A B} (n : nat) (f : A -> B -> logged L A) (acc : A) (l : list B) evs r :
  (forall acc x evs' r', x ∈ l -> f acc x = (evs', r') -> List.length evs' <= n) ->
  lfoldl f acc l = (evs, r) -> List.length evs <= n * List.length l.
Proof.
  revert acc evs. induction l as [|x l IH]; intros acc evs Hf; simpl.
  - intros [= <- _]. simpl. lia.
  - intros [(e & Hx & _)|(evs1 & acc' & evs2 & Hx & Hrest & ->)]%lbind_cases.
    + pose proof (Hf _ _ _ _ (list_elem_of_here x l) Hx). lia.
    + rewrite length_app.
      pose proof (Hf _ _ _ _ (list_elem_of_here x l) Hx).
      assert (List.length evs2 <= n * List.length l); [|lia].
      eapply IH; [|done]. intros; eapply Hf; [by right | done].
Qed.

Open Scope string_scope.

(** ** Strings

    stdpp declares [String.append] [simpl never]; the two equations below
    are the way proofs unfold it. *)

Lemma str_app_nil_l (s : string) : "" ++ s = s.
Proof. reflexivity. Qed.

Lemma str_app_cons (c : ascii) (s1 s2 : string) : String c s1 ++ s2 = String c (s1 ++ s2).
Proof. reflexivity. Qed.

#[export] Hint Rewrite str_app_nil_l str_app_cons : pystr_rw.

Lemma str_app_nil_r (s : string) : s ++ "" = s.
Proof. induction s as [|c s IH]; [done | by rewrite str_app_cons, IH]. Qed.

Lemma str_app_assoc (s1 s2 s3 : string) : s1 ++ (s2 ++ s3) = (s1 ++ s2) ++ s3.
Proof. induction s1 as [|c s1 IH]; [done | by rewrite !str_app_cons, IH]. Qed.

#[export] Hint Rewrite str_app_nil_r : pystr_rw.

Lemma str_length_app (s1 s2 : string) : String.length (s1 ++ s2) = String.length s1 + String.length s2.
Proof. induction s1; autorewrite with pystr_rw; simpl; lia. Qed.

Lemma str_app_inv_l (s s1 s2 : string) : s ++ s1 = s ++ s2 -> s1 = s2.
Proof. induction s; rewrite ?str_app_cons; [done | intros H; injection H; auto]. Qed.

(** Reversal of a string, used to reason about suffixes. *)
Fixpoint str_rev (s : string) : string :=
  match s with
  | EmptyString => EmptyString
  | String c r => str_rev r ++ String c EmptyString
  end.

Lemma str_rev_app (s1 s2 : string) : str_rev (s1 ++ s2) = str_rev s2 ++ str_rev s1.
Proof.
  induction s1 as [|c s1 IH]; simpl.
  - by rewrite str_app_nil_r.
  - by rewrite IH, str_app_assoc.
Qed.

Lemma str_rev_involutive (s : string) : str_rev (str_rev s) = s.
Proof. induction s as [|c s IH]; simpl; [done|]. by rewrite str_rev_app, IH. Qed.

Lemma str_app_inv_r (s s1 s2 : string) : s1 ++ s = s2 ++ s -> s1 = s2.
Proof.
  intros H. apply (f_equal str_rev) in H. rewrite !str_rev_app in H.
  apply str_app_inv_l in H. by rewrite <- (str_rev_involutive s1), H, str_rev_involutive.
Qed.

Lemma str_length_rev (s : string) : String.length (str_rev s) = String.length s.
Proof. induction s; simpl; [done|]. rewrite str_length_app; simpl; lia. Qed.

(** Equal strings split at prefixes of equal length agree on both parts. *)
Lemma str_app_prefix_eq (p1 p2 x y : string) :
  String.length p1 = String.length p2 -> p1 ++ x = p2 ++ y -> p1 = p2 /\ x = y.
Proof.
  revert p2. induction p1 as [|c p1 IH]; intros [|d p2] Hl H;
    rewrite ?str_app_cons in H; simpl in *;
    try discriminate; [done|].
  injection H as -> H. destruct (IH p2) as [-> ->]; auto.
Qed.

(** ... and so do strings split at suffixes of equal length. *)
Lemma str_app_suffix_eq (a b sa sb : string) :
  String.length sa = String.length sb -> a ++ sa = b ++ sb -> a = b /\ sa = sb.
Proof.
  intros Hl H. apply (f_equal str_rev) in H. rewrite !str_rev_app in H.
  apply str_app_prefix_eq in H as [H1 H2]; [|by rewrite !str_length_rev].
  split; [rewrite <- (str_rev_involutive a), H2 | rewrite <- (str_rev_involutive sa), H1];
    apply str_rev_involutive.
Qed.

(** ** Maps *)

(** Inserting the pairs of a list from left to right builds the map of
    the reversed list: a later pair overrides an earlier one. *)
Lemma foldl_insert_list_to_map `{FinMap K M} {A} (d : M A) (kvs : list (K * A)) :
  foldl (fun m kv => <[kv.1 := kv.2]> m) d kvs = foldr (fun p => <[p.1 := p.2]>) d (reverse kvs).
Proof.
  revert d. induction kvs as [|kv kvs IH]; intros d; [done|].
  simpl. by rewrite IH, reverse_cons, foldr_app.
Qed.

(** [d[k]] on a dict kept as an association list in insertion order. *)
Fixpoint assoc_lookup {A} (k : string) (l : list (string * A)) : option A :=
  match l with
  | [] => None
  | (k', v) :: r => if String.eqb k k' then Some v else assoc_lookup k r
  end.
