(* ===== verification/PyStr.v ===== *)
(** * PyStr: the Python [str] builtins called by [src/ha-ups-mqtt.py]

    Strings are Rocq's [string], read as sequences of code points below
    256.  Each function follows CPython's behaviour on that range:
    [str.isspace] (tab to carriage return, the four information
    separators U+001C..U+001F, space, U+0085, U+00A0), the line
    boundaries of [str.splitlines] (LF, VT, FF, CR, CR LF, U+001C..U+001E,
    U+0085), [str.lower] (ASCII and Latin-1 capitals), [str.replace] of
    one character by another, membership of a character and
    [str.split(sep, 1)]. *)

From S2P Require Import Prelude.

Module PyStr.

(** ** Characters *)

Definition code (c : ascii) : nat := nat_of_ascii c.

(** Line feed and carriage return. *)
Definition LF : ascii := "010"%char.
Definition CR : ascii := "013"%char.

Definition chr_eqb (c d : ascii) : bool := Ascii.eqb c d.

Lemma chr_eqb_spec (c d : ascii) : reflect (c = d) (chr_eqb c d).
Proof. apply Ascii.eqb_spec. Qed.

Lemma chr_eqb_refl (c : ascii) : chr_eqb c c = true.
Proof. apply Ascii.eqb_refl. Qed.

Lemma chr_eqb_neq (c d : ascii) : c <> d -> chr_eqb c d = false.
Proof. intros H. by destruct (chr_eqb_spec c d). Qed.

#[export] Hint Rewrite chr_eqb_refl : pystr_rw.

(** [str.isspace] on one code point below 256. *)
Definition py_isspace (c : ascii) : bool :=
  let n := code c in
  (Nat.leb 9 n && Nat.leb n 13) || (Nat.leb 28 n && Nat.leb n 32)
  || Nat.eqb n 133 || Nat.eqb n 160.

(** The line boundaries of [str.splitlines]; CR LF is handled by
    [splitlines] itself. *)
Definition py_is_linebreak (c : ascii) : bool :=
  let n := code c in
  (Nat.leb 10 n && Nat.leb n 13) || (Nat.leb 28 n && Nat.leb n 30) || Nat.eqb n 133.

(** [str.lower] on one code point: A-Z and the Latin-1 capitals
    U+00C0..U+00DE except U+00D7 move up by 32. *)
Definition lower_char (c : ascii) : ascii :=
  let n := code c in
  if (Nat.leb 65 n && Nat.leb n 90) || (Nat.leb 192 n && Nat.leb n 222 && negb (Nat.eqb n 215))
  then ascii_of_nat (n + 32) else c.

(** ** String functions *)

(** [c in s] for a one-character [c]. *)
Fixpoint char_in (c : ascii) (s : string) : bool :=
  match s with
  | EmptyString => false
  | String d r => chr_eqb d c || char_in c r
  end.

Notation "c ∈ₛ s" := (char_in c s) (at level 70) : py_scope.

(** [s.lower()] *)
Fixpoint lower (s : string) : string :=
  match s with
  | EmptyString => EmptyString
  | String c r => String (lower_char c) (lower r)
  end.

(** [s.replace(a, b)] for one-character [a] and [b]: every occurrence. *)
Fixpoint replace_char (a b : ascii) (s : string) : string :=
  match s with
  | EmptyString => EmptyString
  | String c r => String (if chr_eqb c a then b else c) (replace_char a b r)
  end.

Notation "s .[ a ↦ b ]" := (replace_char a b s) (at level 1, left associativity) : py_scope.

(** [s.lstrip()], [s.rstrip()] and [s.strip()]. *)
Fixpoint lstrip (s : string) : string :=
  match s with
  | EmptyString => EmptyString
  | String c r => if py_isspace c then lstrip r else s
  end.

Fixpoint rstrip (s : string) : string :=
  match s with
  | EmptyString => EmptyString
  | String c r =>
      let r' := rstrip r in
      if py_isspace c && String.eqb r' "" then EmptyString else String c r'
  end.

Definition strip (s : string) : string := rstrip (lstrip s).

(** The first occurrence of [sep] splits [s]. *)
Fixpoint split_once (sep : ascii) (s : string) : option (string * string) :=
  match s with
  | EmptyString => None
  | String c r =>
      if chr_eqb c sep then Some (EmptyString, r)
      else match split_once sep r with
           | Some (k, v) => Some (String c k, v)
           | None => None
           end
  end.

(** [s.split(sep, 1)] for a one-character separator: two pieces when
    [sep] occurs, the whole string otherwise. *)
Definition py_split1 (sep : ascii) (s : string) : list string :=
  match split_once sep s with
  | Some (k, v) => [k; v]
  | None => [s]
  end.

(** [s.splitlines()]: a line ends at a boundary character (CR LF counts
    as one); a final line without a boundary is kept, and no empty line
    follows a final boundary. *)
Fixpoint splitlines (s : string) : list string :=
  match s with
  | EmptyString => []
  | String c r =>
      if py_is_linebreak c then
        "" :: splitlines (if chr_eqb c CR
                          then match r with
                               | String d r' => if chr_eqb d LF then r' else r
                               | EmptyString => r
                               end
                          else r)
      else match splitlines r with
           | [] => [String c EmptyString]
           | l :: ls => String c l :: ls
           end
  end.

Example splitlines_py_1 :
  splitlines ("a" ++ String CR (String LF "b") ++ String LF "") = ["a"; "b"].
Proof. reflexivity. Qed.

(** ** Lemmas *)

(** A boolean test on every character of a string. *)
Fixpoint str_forallb (p : ascii -> bool) (s : string) : bool :=
  match s with
  | EmptyString => true
  | String c r => p c && str_forallb p r
  end.

Lemma str_forallb_app (p : ascii -> bool) (s1 s2 : string) :
  str_forallb p (s1 ++ s2) = str_forallb p s1 && str_forallb p s2.
Proof.
  induction s1 as [|c s1 IH]; [done|].
  rewrite str_app_cons; simpl. by rewrite IH, andb_assoc.
Qed.

Lemma char_in_app (c : ascii) (s1 s2 : string) :
  char_in c (s1 ++ s2) = char_in c s1 || char_in c s2.
Proof.
  induction s1 as [|d s1 IH]; [done|].
  rewrite str_app_cons; simpl. by rewrite IH, orb_assoc.
Qed.

Lemma char_in_forallb (c : ascii) (s : string) :
  char_in c s = negb (str_forallb (fun d => negb (chr_eqb d c)) s).
Proof. induction s as [|d s IH]; simpl; [done|]. rewrite IH. by destruct (chr_eqb d c). Qed.

#[export] Hint Rewrite str_forallb_app char_in_app : pystr_rw.

(** *** [lower] and [replace_char] *)

Lemma lower_app (s1 s2 : string) : lower (s1 ++ s2) = lower s1 ++ lower s2.
Proof. induction s1 as [|c s1 IH]; [done|]. rewrite !str_app_cons; simpl. by rewrite IH. Qed.

Lemma replace_char_app (a b : ascii) (s1 s2 : string) :
  replace_char a b (s1 ++ s2) = replace_char a b s1 ++ replace_char a b s2.
Proof. induction s1 as [|c s1 IH]; [done|]. rewrite !str_app_cons; simpl. by rewrite IH. Qed.

#[export] Hint Rewrite lower_app replace_char_app : pystr_rw.

(** After [s.replace(a, b)] with [a <> b] no [a] is left. *)
Lemma replace_char_removes (a b : ascii) (s : string) :
  a <> b -> char_in a (replace_char a b s) = false.
Proof.
  intros Hab. induction s as [|c s IH]; simpl; [done|]. rewrite IH, orb_false_r.
  destruct (chr_eqb_spec c a); apply chr_eqb_neq; congruence.
Qed.

(** Replacing [a] by [b] twice is replacing it once. *)
Lemma replace_char_idem (a b : ascii) (s : string) :
  a <> b -> replace_char a b (replace_char a b s) = replace_char a b s.
Proof.
  intros Hab. induction s as [|c s IH]; simpl; [done|]. rewrite IH.
  destruct (chr_eqb_spec c a) as [->|Hca]; simpl.
  - by rewrite chr_eqb_neq by congruence.
  - by rewrite chr_eqb_neq by done.
Qed.

(** [s.replace(a, b)] is injective on strings that contain no [b]. *)
Lemma replace_char_inj (a b : ascii) (s1 s2 : string) :
  char_in b s1 = false -> char_in b s2 = false ->
  replace_char a b s1 = replace_char a b s2 -> s1 = s2.
Proof.
  revert s2. induction s1 as [|c1 s1 IH]; intros [|c2 s2]; simpl; try done.
  intros H1 H2 Heq. apply orb_false_iff in H1 as [H1 H1'], H2 as [H2 H2'].
  injection Heq as Hc Hr. f_equal; [|by apply IH].
  destruct (chr_eqb_spec c1 a), (chr_eqb_spec c2 a); subst; try done.
  - by rewrite chr_eqb_refl in H2.
  - by rewrite chr_eqb_refl in H1.
Qed.

(** *** [strip] *)

(** A string starts with a non-space character, or is empty. *)
Definition no_lead_space (s : string) : Prop :=
  match s with EmptyString => True | String c _ => py_isspace c = false end.

Lemma lstrip_no_lead_space (s : string) : no_lead_space (lstrip s).
Proof.
  induction s as [|c s IH]; simpl; [done|].
  destruct (py_isspace c) eqn:E; [done | simpl; done].
Qed.

Lemma lstrip_id (s : string) : no_lead_space s -> lstrip s = s.
Proof. destruct s as [|c s]; simpl; [done|]. by intros ->. Qed.

Lemma rstrip_no_lead_space (s : string) : no_lead_space s -> no_lead_space (rstrip s).
Proof.
  destruct s as [|c s]; simpl; [done|]. intros Hc. rewrite Hc. simpl. done.
Qed.

Lemma rstrip_idem (s : string) : rstrip (rstrip s) = rstrip s.
Proof.
  induction s as [|c s IH]; simpl; [done|].
  destruct (py_isspace c && String.eqb (rstrip s) "") eqn:E; [done|].
  simpl. by rewrite IH, E.
Qed.

(** [strip] is idempotent: a stripped key stays as it is. *)
Lemma strip_idem (s : string) : strip (strip s) = strip s.
Proof.
  unfold strip. rewrite (lstrip_id (rstrip (lstrip s))); [apply rstrip_idem|].
  apply rstrip_no_lead_space, lstrip_no_lead_space.
Qed.

(** *** [split_once] and [py_split1] *)

Lemma split_once_some (sep : ascii) (s k v : string) :
  split_once sep s = Some (k, v) -> s = k ++ String sep v /\ char_in sep k = false.
Proof.
  revert k v. induction s as [|c s IH]; intros k v; simpl; [discriminate|].
  destruct (chr_eqb_spec c sep) as [->|Hne].
  - intros H; injection H as <- <-. done.
  - destruct (split_once sep s) as [[k' v']|]; [|discriminate].
    intros H; injection H as <- <-. destruct (IH k' v' eq_refl) as [-> Hk].
    split; [done|]. simpl. by rewrite chr_eqb_neq, Hk.
Qed.

Lemma split_once_none (sep : ascii) (s : string) :
  split_once sep s = None <-> char_in sep s = false.
Proof.
  induction s as [|c s IH]; simpl; [done|].
  destruct (chr_eqb_spec c sep) as [->|Hne]; simpl; [split; discriminate|].
  destruct (split_once sep s) as [[k v]|]; rewrite <- IH; split; congruence.
Qed.

(** Joining a separator-free [k] and any [v] around [sep] and splitting
    again gives them back. *)
Lemma split_once_app (sep : ascii) (k v : string) :
  char_in sep k = false -> split_once sep (k ++ String sep v) = Some (k, v).
Proof.
  induction k as [|c k IH]; simpl; intros H.
  - by rewrite chr_eqb_refl.
  - apply orb_false_iff in H as [Hc Hk]. rewrite Hc, IH; done.
Qed.

(** When [sep in s], [s.split(sep, 1)] has exactly two pieces: the
    unpacking [key, val = ...] of [read_ups] never fails. *)
Lemma py_split1_two (sep : ascii) (s : string) :
  char_in sep s = true -> exists k v, py_split1 sep s = [k; v] /\ split_once sep s = Some (k, v).
Proof.
  unfold py_split1. intros H. destruct (split_once sep s) as [[k v]|] eqn:E; [eauto|].
  apply split_once_none in E. congruence.
Qed.

(** *** [splitlines] *)

Definition no_linebreak (s : string) : bool := str_forallb (fun c => negb (py_is_linebreak c)) s.

Lemma splitlines_line (l rest : string) :
  no_linebreak l = true -> splitlines (l ++ String LF rest) = l :: splitlines rest.
Proof.
  induction l as [|c l IH]; simpl; intros H; [done|].
  apply andb_true_iff in H as [Hc Hl]. apply negb_true_iff in Hc.
  rewrite Hc, IH; done.
Qed.

(** The lines of the text [l1 LF l2 LF ... ln LF]. *)
Fixpoint join_lines (ls : list string) : string :=
  match ls with
  | [] => EmptyString
  | l :: ls' => l ++ String LF (join_lines ls')
  end.

(** [splitlines] inverts [join_lines] on lines free of boundaries. *)
Lemma splitlines_join_lines (ls : list string) :
  Forall (fun l => no_linebreak l = true) ls -> splitlines (join_lines ls) = ls.
Proof.
  induction 1 as [|l ls Hl _ IH]; [done|]. simpl. by rewrite splitlines_line, IH.
Qed.

(** [strip] keeps a subsequence of its argument: a property of every
    character survives it. *)
Lemma strip_forallb (p : ascii -> bool) (s : string) :
  str_forallb p s = true -> str_forallb p (strip s) = true.
Proof.
  unfold strip. intros H.
  assert (Hl : str_forallb p (lstrip s) = true).
  { induction s as [|c s IH]; simpl in *; [done|].
    apply andb_true_iff in H as [Hc Hs]. destruct (py_isspace c); simpl; [auto|].
    by rewrite Hc, Hs. }
  clear H. induction (lstrip s) as [|c r IH]; simpl in *; [done|].
  apply andb_true_iff in Hl as [Hc Hr].
  destruct (py_isspace c && String.eqb (rstrip r) ""); simpl; [done|]. by rewrite Hc, IH.
Qed.

Lemma strip_lead_space (c : ascii) (v : string) :
  py_isspace c = true -> strip (String c v) = strip v.
Proof. intros H. unfold strip. simpl. by rewrite H. Qed.

(** *** Characters [lower] and [replace_char] leave alone *)

(** [str.lower] maps no character to ['+'] or ['#'] but themselves. *)
Lemma lower_char_plus (d : ascii) : chr_eqb (lower_char d) "+"%char = chr_eqb d "+"%char.
Proof. destruct d as [[] [] [] [] [] [] [] []]; vm_compute; reflexivity. Qed.

Lemma lower_char_hash (d : ascii) : chr_eqb (lower_char d) "#"%char = chr_eqb d "#"%char.
Proof. destruct d as [[] [] [] [] [] [] [] []]; vm_compute; reflexivity. Qed.

Lemma char_in_lower_plus (s : string) : char_in "+"%char (lower s) = char_in "+"%char s.
Proof. induction s as [|d s IH]; simpl; [done|]. by rewrite lower_char_plus, IH. Qed.

Lemma char_in_lower_hash (s : string) : char_in "#"%char (lower s) = char_in "#"%char s.
Proof. induction s as [|d s IH]; simpl; [done|]. by rewrite lower_char_hash, IH. Qed.

(** Replacing [a] by [b] does not change the occurrences of a third
    character. *)
Lemma char_in_replace_other (a b c : ascii) (s : string) :
  c <> a -> c <> b -> char_in c (replace_char a b s) = char_in c s.
Proof.
  intros Ha Hb. induction s as [|d s IH]; simpl; [done|]. rewrite IH.
  destruct (chr_eqb_spec d a) as [->|Hda]; [|done].
  rewrite (chr_eqb_neq a c), (chr_eqb_neq b c); congruence.
Qed.

#[export] Hint Rewrite char_in_lower_plus char_in_lower_hash : pystr_rw.

End PyStr.
Export PyStr.
