(* ===== verification/StatusReader.v ===== *)
(** * StatusReader: [read_ups] (src/ha-ups-mqtt.py, lines 15-25)

    [read_ups] runs [upsc <ups_name>] and turns its standard output into a
    dict.  The process is external: the model takes the function that runs
    a command line, which either raises (the [OSError] of a missing
    binary) or returns the return code and the decoded standard output.
    The dict is a [gmap string string]; a later line with the same key
    overwrites an earlier one, as [data[key] = ...] does. *)

From S2P Require Import Prelude PyStr.
From Stdlib Require Import ZArith.

Module StatusReader.

(** What [subprocess.run(..., capture_output=True, text=True)] returns
    that [read_ups] reads. *)
Record completed_process := {
  returncode : Z;
  stdout : string
}.

(** The dict of the status fields. *)
Abbreviation snapshot := (gmap string string).

Definition COLON : ascii := ":"%char.

(** One iteration of [for line in result.stdout.splitlines()]. *)
Definition parse_line (data : snapshot) (line : string) : py_result snapshot :=
  if char_in COLON line then
    match py_split1 COLON line with
    | [key; val] => inr (<[strip key := strip val]> data)
    | _ => inl (ValueError "not enough values to unpack")
    end
  else inr data.

Fixpoint parse_lines (data : snapshot) (lines : list string) : py_result snapshot :=
  match lines with
  | [] => inr data
  | line :: rest => py_bind (parse_line data line) (fun d => parse_lines d rest)
  end.

(** [read_ups ups_name] with [run] standing for [subprocess.run]. *)
Definition read_ups (run : list string -> py_result completed_process)
    (ups_name : string) : py_result snapshot :=
  py_bind (run ["upsc"; ups_name]) (fun result =>
    if negb (Z.eqb (returncode result) 0) then inr ∅
    else parse_lines ∅ (splitlines (stdout result))).

(** ** The parse as a total function *)

(** What one line does to the dict when nothing is raised. *)
Definition parse_step (data : snapshot) (line : string) : snapshot :=
  match split_once COLON line with
  | Some (k, v) => <[strip k := strip v]> data
  | None => data
  end.

Lemma parse_line_step (data : snapshot) (line : string) :
  parse_line data line = inr (parse_step data line).
Proof.
  unfold parse_line, parse_step, py_split1.
  destruct (char_in COLON line) eqn:E.
  - by destruct (py_split1_two COLON line E) as (k & v & _ & ->).
  - by apply split_once_none in E as ->.
Qed.

Lemma parse_lines_foldl (data : snapshot) (lines : list string) :
  parse_lines data lines = inr (foldl parse_step data lines).
Proof.
  revert data. induction lines as [|l ls IH]; intros data; [done|].
  simpl. rewrite parse_line_step. apply IH.
Qed.

(** Once [upsc] has run, [read_ups] returns: the parse never raises. *)
Lemma read_ups_returns (run : list string -> py_result completed_process)
    (ups_name : string) (r : completed_process) :
  run ["upsc"; ups_name] = inr r -> exists data, read_ups run ups_name = inr data.
Proof.
  intros Hr. unfold read_ups. rewrite Hr. cbn [py_bind].
  destruct (negb _); [by eexists|]. rewrite parse_lines_foldl. by eexists.
Qed.

(** ** Well-formed snapshots *)

(** Every key is stripped and has no colon; every value is stripped. *)
Definition entry_wf (k v : string) : Prop :=
  strip k = k /\ char_in COLON k = false /\ strip v = v.

Definition snapshot_wf (data : snapshot) : Prop := map_Forall entry_wf data.

Lemma parse_step_wf (data : snapshot) (line : string) :
  snapshot_wf data -> snapshot_wf (parse_step data line).
Proof.
  unfold parse_step. destruct (split_once COLON line) as [[k v]|] eqn:E; [|done].
  intros Hwf. apply map_Forall_insert_2; [|done].
  apply split_once_some in E as [_ Hk].
  split; [apply strip_idem|]. split; [|apply strip_idem].
  rewrite char_in_forallb in Hk |- *. apply negb_false_iff.
  apply strip_forallb. by apply negb_false_iff.
Qed.

Lemma foldl_parse_step_wf (data : snapshot) (lines : list string) :
  snapshot_wf data -> snapshot_wf (foldl parse_step data lines).
Proof.
  revert data. induction lines; intros data Hd; simpl; [done|]. by apply IHlines, parse_step_wf.
Qed.

(** ** The [key: value] text of a list of pairs *)

Definition render_line (kv : string * string) : string :=
  kv.1 ++ String COLON (String " " kv.2).

Definition render (kvs : list (string * string)) : string := join_lines (map render_line kvs).

(** A pair [upsc] may print: well formed and free of line boundaries. *)
Definition printable_entry (kv : string * string) : Prop :=
  entry_wf kv.1 kv.2 /\ no_linebreak kv.1 = true /\ no_linebreak kv.2 = true.

Lemma splitlines_render (kvs : list (string * string)) :
  Forall printable_entry kvs -> splitlines (render kvs) = map render_line kvs.
Proof.
  intros H. apply splitlines_join_lines. apply Forall_fmap, (Forall_impl _ _ _ H).
  intros [k v] (_ & Hk & Hv). unfold no_linebreak, render_line in *. simpl in *.
  autorewrite with pystr_rw. simpl. by rewrite Hk, Hv.
Qed.

Lemma parse_step_render (data : snapshot) (kv : string * string) :
  printable_entry kv -> parse_step data (render_line kv) = <[kv.1 := kv.2]> data.
Proof.
  destruct kv as [k v]; intros ((Hk & Hc & Hv) & _); simpl in *. unfold parse_step, render_line; simpl.
  rewrite split_once_app by done. rewrite strip_lead_space by done. by rewrite Hk, Hv.
Qed.

(** ** Theorems *)

(** C11: when [upsc] runs, [read_ups] never raises: the unpacking
    [key, val = line.split(":", 1)] always gets two pieces.  With a zero
    return code the dict is the fold of the line parse over
    [splitlines()]; with any other return code it is empty. *)
Theorem read_ups_spec (run : list string -> py_result completed_process)
    (ups_name : string) (r : completed_process) :
  run ["upsc"; ups_name] = inr r ->
  read_ups run ups_name =
    inr (if Z.eqb (returncode r) 0 then foldl parse_step ∅ (splitlines (stdout r)) else ∅).
Proof.
  intros Hrun. unfold read_ups. rewrite Hrun; simpl.
  destruct (Z.eqb (returncode r) 0); simpl; [apply parse_lines_foldl | done].
Qed.

Definition run_fixed (r : completed_process) : list string -> py_result completed_process :=
  fun _ => inr r.

Lemma read_ups_spec_witness :
  read_ups (run_fixed {| returncode := 1; stdout := render [("ups.status", "OL")] |}) "ups" = inr ∅.
Proof.
  rewrite (read_ups_spec _ "ups" {| returncode := 1; stdout := render [("ups.status", "OL")] |});
    reflexivity.
Defined.

(** C13: every dict [read_ups] returns is well formed: its keys are
    stripped and contain no colon, its values are stripped. *)
Theorem read_ups_wf (run : list string -> py_result completed_process)
    (ups_name : string) (data : snapshot) :
  read_ups run ups_name = inr data -> snapshot_wf data.
Proof.
  unfold read_ups. destruct (run ["upsc"; ups_name]) as [e|r]; simpl; [discriminate|].
  destruct (Z.eqb (returncode r) 0); simpl; intros H.
  - rewrite parse_lines_foldl in H. injection H as <-.
    apply foldl_parse_step_wf, map_Forall_empty.
  - injection H as <-. apply map_Forall_empty.
Qed.

Lemma read_ups_wf_witness : snapshot_wf (<["a" := "b"]> ∅).
Proof.
  apply (read_ups_wf (run_fixed {| returncode := 0; stdout := render [(" a ", "b")] |}) "ups").
  vm_compute. reflexivity.
Defined.

(** C12 (round trip): when [upsc] succeeds and prints the [key: value]
    lines of a list of printable pairs, [read_ups] returns the dict of
    that list, a later pair overriding an earlier one with the same key. *)
Theorem read_ups_roundtrip (run : list string -> py_result completed_process)
    (ups_name : string) (kvs : list (string * string)) :
  run ["upsc"; ups_name] = inr {| returncode := 0; stdout := render kvs |} ->
  Forall printable_entry kvs ->
  read_ups run ups_name = inr (list_to_map (reverse kvs)).
Proof.
  intros Hrun Hkvs. unfold read_ups. rewrite Hrun; simpl.
  rewrite parse_lines_foldl, splitlines_render by done. f_equal.
  unfold list_to_map. rewrite <- foldl_insert_list_to_map.
  clear Hrun. generalize (∅ : snapshot).
  induction Hkvs as [|kv kvs Hkv _ IH]; intros d; [done|].
  simpl. rewrite parse_step_render by done. apply IH.
Qed.

Lemma read_ups_roundtrip_witness :
  read_ups (run_fixed {| returncode := 0;
                         stdout := render [("battery.charge", "90"); ("battery.charge", "85")] |}) "ups"
  = inr (list_to_map (reverse [("battery.charge", "90"); ("battery.charge", "85")])).
Proof.
  apply read_ups_roundtrip; [reflexivity|].
  repeat constructor; vm_compute; reflexivity.
Defined.

End StatusReader.
