(* ===== verification/Json.v ===== *)
(** * Json: the values [json.dumps] receives and its encoder

    [main] publishes [json.dumps(payload)] (src/ha-ups-mqtt.py, line 102)
    with the default arguments: [ensure_ascii=True] and the separators
    [", "] and [": "].  [json.dumps] is library code; [json_dumps] follows
    CPython's [py_encode_basestring_ascii] for strings (the two-character
    escapes of backslash, quote, backspace, form feed, newline, carriage
    return and tab; [\u00XX] with lower-case hex digits for every other
    code point outside space..tilde) and its list and dict encoders.  A
    dict is an association list in insertion order, as Python keeps it.

    The second half is a JSON reader ([json_loads]), which the program
    does not contain: it states what a subscriber of the discovery topic
    reads.  [parse_value_dumps] and [json_need_length] show that it reads
    back every value the encoder wrote, which [Broker] uses to state what
    the hub learns from a discovery message. *)

From S2P Require Import Prelude PyStr.

Module Json.

Inductive json :=
| JNull
| JStr (s : string)
| JArr (l : list json)
| JObj (kvs : list (string * json)).

(** Induction with a hypothesis on every element of a list or dict. *)
Section json_ind_strong.
Variable P : json -> Prop.
Hypothesis HNull : P JNull.
Hypothesis HStr : forall s, P (JStr s).
Hypothesis HArr : forall l, Forall P l -> P (JArr l).
Hypothesis HObj : forall kvs, Forall (fun kv => P kv.2) kvs -> P (JObj kvs).

Fixpoint json_ind_strong (j : json) : P j :=
  match j with
  | JNull => HNull
  | JStr s => HStr s
  | JArr l =>
      HArr l ((fix go (l : list json) : Forall P l :=
                 match l with
                 | [] => Forall_nil_2 _
                 | x :: r => Forall_cons_2 _ x r (json_ind_strong x) (go r)
                 end) l)
  | JObj kvs =>
      HObj kvs ((fix go (kvs : list (string * json)) : Forall (fun kv => P kv.2) kvs :=
                   match kvs with
                   | [] => Forall_nil_2 _
                   | (k, v) :: r => Forall_cons_2 _ (k, v) r (json_ind_strong v) (go r)
                   end) kvs)
  end.
End json_ind_strong.

(** ** The encoder *)

Definition QUOTE : ascii := "034"%char.
Definition BACKSLASH : ascii := "092"%char.

(** A lower-case hex digit. *)
Definition hex_digit (n : nat) : ascii :=
  if Nat.ltb n 10 then ascii_of_nat (48 + n) else ascii_of_nat (87 + n).

(** The escape of one character inside a JSON string literal. *)
Definition escape_char (c : ascii) : string :=
  let n := code c in
  if chr_eqb c BACKSLASH then String BACKSLASH (String BACKSLASH "")
  else if chr_eqb c QUOTE then String BACKSLASH (String QUOTE "")
  else if Nat.eqb n 8 then String BACKSLASH "b"
  else if Nat.eqb n 12 then String BACKSLASH "f"
  else if Nat.eqb n 10 then String BACKSLASH "n"
  else if Nat.eqb n 13 then String BACKSLASH "r"
  else if Nat.eqb n 9 then String BACKSLASH "t"
  else if Nat.leb 32 n && Nat.leb n 126 then String c ""
  else String BACKSLASH ("u00" ++ String (hex_digit (n / 16)) (String (hex_digit (n mod 16)) "")).

Fixpoint escape_str (s : string) : string :=
  match s with
  | EmptyString => EmptyString
  | String c r => escape_char c ++ escape_str r
  end.

Definition encode_str (s : string) : string := String QUOTE (escape_str s ++ String QUOTE "").

(** [sep.join(items)] *)
Fixpoint join (sep : string) (items : list string) : string :=
  match items with
  | [] => EmptyString
  | [x] => x
  | x :: r => x ++ sep ++ join sep r
  end.

Fixpoint json_dumps (j : json) : string :=
  match j with
  | JNull => "null"
  | JStr s => encode_str s
  | JArr l => "[" ++ join ", " (map json_dumps l) ++ "]"
  | JObj kvs =>
      "{" ++ join ", " (map (fun kv => match kv with
                                       | (k, v) => encode_str k ++ ": " ++ json_dumps v
                                       end) kvs) ++ "}"
  end.

Example json_dumps_example :
  json_dumps (JArr [JNull; JArr []; JObj []]) = "[null, [], {}]".
Proof. reflexivity. Qed.

(** ** A JSON reader

    What a subscriber of the discovery topic does with the payload: read
    it back as JSON (RFC 8259, on the values [json_dumps] produces).  The
    reader is not code of the program; it states what the published text
    means.  [read_str] reads a string literal after its opening quote;
    [parse_value], [parse_elems] and [parse_members] are a recursive
    descent bounded by [fuel]. *)

(** The value of a lower-case hex digit. *)
Definition hex_val (c : ascii) : option nat :=
  let n := code c in
  if Nat.leb 48 n && Nat.leb n 57 then Some (n - 48)
  else if Nat.leb 97 n && Nat.leb n 102 then Some (n - 87) else None.

(** The character of a two-character escape [\e]. *)
Definition unescape (e : ascii) : option ascii :=
  if chr_eqb e BACKSLASH then Some BACKSLASH
  else if chr_eqb e QUOTE then Some QUOTE
  else if chr_eqb e "b"%char then Some "008"%char
  else if chr_eqb e "f"%char then Some "012"%char
  else if chr_eqb e "n"%char then Some "010"%char
  else if chr_eqb e "r"%char then Some "013"%char
  else if chr_eqb e "t"%char then Some "009"%char
  else None.

Definition cons_str (c : ascii) (o : option (string * string)) : option (string * string) :=
  match o with Some (x, rest) => Some (String c x, rest) | None => None end.

Fixpoint read_str (s : string) : option (string * string) :=
  match s with
  | EmptyString => None
  | String c r =>
      if chr_eqb c QUOTE then Some (EmptyString, r)
      else if chr_eqb c BACKSLASH then
        match r with
        | EmptyString => None
        | String e r1 =>
            if chr_eqb e "u"%char then
              match r1 with
              | String z1 (String z2 (String h1 (String h2 r2))) =>
                  if chr_eqb z1 "0"%char && chr_eqb z2 "0"%char then
                    match hex_val h1, hex_val h2 with
                    | Some a, Some b => cons_str (ascii_of_nat (16 * a + b)) (read_str r2)
                    | _, _ => None
                    end
                  else None
              | _ => None
              end
            else match unescape e with
                 | Some d => cons_str d (read_str r1)
                 | None => None
                 end
        end
      else cons_str c (read_str r)
  end.

(** [s] with the prefix [p] removed, if [s] starts with [p]. *)
Fixpoint strip_prefix (p s : string) : option string :=
  match p, s with
  | EmptyString, _ => Some s
  | String a p', String b s' => if chr_eqb a b then strip_prefix p' s' else None
  | String _ _, EmptyString => None
  end.

Fixpoint parse_value (fuel : nat) (s : string) : option (json * string) :=
  match fuel with
  | O => None
  | S n =>
      match strip_prefix "null" s with
      | Some r => Some (JNull, r)
      | None =>
      match strip_prefix (String QUOTE "") s with
      | Some r => match read_str r with Some (x, r') => Some (JStr x, r') | None => None end
      | None =>
      match strip_prefix "[" s with
      | Some r =>
          match strip_prefix "]" r with
          | Some r' => Some (JArr [], r')
          | None => match parse_elems n r with Some (l, r') => Some (JArr l, r') | None => None end
          end
      | None =>
      match strip_prefix "{" s with
      | Some r =>
          match strip_prefix "}" r with
          | Some r' => Some (JObj [], r')
          | None => match parse_members n r with Some (kvs, r') => Some (JObj kvs, r') | None => None end
          end
      | None => None
      end end end end
  end
with parse_elems (fuel : nat) (s : string) : option (list json * string) :=
  match fuel with
  | O => None
  | S n =>
      match parse_value n s with
      | Some (v, r) =>
          match strip_prefix ", " r with
          | Some r' => match parse_elems n r' with Some (l, r'') => Some (v :: l, r'') | None => None end
          | None => match strip_prefix "]" r with Some r' => Some ([v], r') | None => None end
          end
      | None => None
      end
  end
with parse_members (fuel : nat) (s : string) : option (list (string * json) * string) :=
  match fuel with
  | O => None
  | S n =>
      match strip_prefix (String QUOTE "") s with
      | Some r0 =>
          match read_str r0 with
          | Some (k, r1) =>
              match strip_prefix ": " r1 with
              | Some r2 =>
                  match parse_value n r2 with
                  | Some (v, r) =>
                      match strip_prefix ", " r with
                      | Some r' =>
                          match parse_members n r' with
                          | Some (kvs, r'') => Some ((k, v) :: kvs, r'')
                          | None => None
                          end
                      | None => match strip_prefix "}" r with Some r' => Some ([(k, v)], r') | None => None end
                      end
                  | None => None
                  end
              | None => None
              end
          | None => None
          end
      | None => None
      end
  end.

(** [json.loads] on the texts [json_dumps] produces; the fuel is the
    length of the text. *)
Definition json_loads (s : string) : option json :=
  match parse_value (String.length s) s with
  | Some (j, EmptyString) => Some j
  | _ => None
  end.

(** ** Lemmas *)

(** *** The reader inverts the encoder *)

Lemma read_escape_char (c : ascii) (tail : string) :
  read_str (escape_char c ++ tail) = cons_str c (read_str tail).
Proof. destruct c as [[] [] [] [] [] [] [] []]; reflexivity. Qed.

Lemma read_escape_str (s tail : string) :
  read_str (escape_str s ++ String QUOTE tail) = Some (s, tail).
Proof.
  induction s as [|c s IH]; [reflexivity|]. cbn [escape_str].
  by rewrite <- str_app_assoc, read_escape_char, IH.
Qed.

Lemma strip_prefix_app (p s : string) : strip_prefix p (p ++ s) = Some s.
Proof. induction p as [|a p IH]; [done|]. rewrite str_app_cons. simpl. by rewrite chr_eqb_refl. Qed.

Lemma strip_prefix_neq (a b : ascii) (p s : string) :
  a <> b -> strip_prefix (String a p) (String b s) = None.
Proof. intros H. simpl. by rewrite chr_eqb_neq. Qed.

Lemma strip_prefix_single (a : ascii) (s : string) : strip_prefix (String a "") (String a s) = Some s.
Proof. simpl. by rewrite chr_eqb_refl. Qed.

Lemma join_cons_app (sep x : string) (l : list string) : exists t, join sep (x :: l) = x ++ t.
Proof. destruct l; [exists ""; by rewrite str_app_nil_r | by eexists]. Qed.

(** The fuel [parse_value] needs for a value: one step per nesting
    level and per element of a list or dict. *)
Fixpoint json_need (j : json) : nat :=
  match j with
  | JNull | JStr _ => 1
  | JArr l => 1 + List.length l + list_max (map json_need l)
  | JObj kvs => 1 + List.length kvs + list_max (map (fun kv => match kv with (_, v) => json_need v end) kvs)
  end.

(** A value whose text the reader reads back, whatever follows it. *)
Definition reads_back (j : json) : Prop :=
  forall fuel rest, json_need j <= fuel -> parse_value fuel (json_dumps j ++ rest) = Some (j, rest).

(** The text of a value starts with [n], a quote, [[] or [{]. *)
Lemma json_dumps_head (j : json) :
  exists c t, json_dumps j = String c t /\ c <> "]"%char /\ c <> "}"%char.
Proof.
  destruct j; simpl; autorewrite with pystr_rw; do 2 eexists; (split; [reflexivity | done]).
Qed.

Lemma strip_close_dumps (j : json) (close : ascii) (t : string) :
  close = "]"%char \/ close = "}"%char -> strip_prefix (String close "") (json_dumps j ++ t) = None.
Proof.
  intros Hc. destruct (json_dumps_head j) as (c & u & -> & H1 & H2). rewrite str_app_cons. simpl.
  destruct (chr_eqb_spec close c) as [<-|]; [by destruct Hc | done].
Qed.

Lemma parse_elems_dumps (l : list json) (rest : string) :
  Forall reads_back l -> forall n, l <> [] -> List.length l + list_max (map json_need l) <= n ->
  parse_elems n (join ", " (map json_dumps l) ++ "]" ++ rest) = Some (l, rest).
Proof.
  induction 1 as [|x l Hx HF IH]; [done|]. intros n _ Hn. destruct n as [|n]; [simpl in Hn; lia|].
  cbn [List.length map list_max fold_right] in Hn. destruct l as [|y l].
  - cbn [map join parse_elems]. rewrite Hx by lia. done.
  - change (join ", " (map json_dumps (x :: y :: l)))
      with (json_dumps x ++ ", " ++ join ", " (map json_dumps (y :: l))).
    rewrite <- !str_app_assoc. cbn [parse_elems]. rewrite Hx by lia.
    rewrite strip_prefix_app, IH; [done | done |]. cbn [List.length map list_max fold_right] in *. lia.
Qed.

(** The text of one member of a dict. *)
Definition member_text (kv : string * json) : string :=
  match kv with (k, v) => encode_str k ++ ": " ++ json_dumps v end.

Lemma parse_members_dumps (kvs : list (string * json)) (rest : string) :
  Forall (fun kv => reads_back kv.2) kvs -> forall n, kvs <> [] ->
  List.length kvs + list_max (map (fun kv => match kv with (_, v) => json_need v end) kvs) <= n ->
  parse_members n (join ", " (map member_text kvs) ++ "}" ++ rest) = Some (kvs, rest).
Proof.
  induction 1 as [|[k v] kvs Hv HF IH]; [done|]. intros n _ Hn. destruct n as [|n]; [simpl in Hn; lia|].
  cbn [List.length map list_max fold_right] in Hn. simpl in Hv.
  assert (Hk : forall t, strip_prefix (String QUOTE "") (encode_str k ++ t) =
                         Some (escape_str k ++ String QUOTE t)).
  { intros t. unfold encode_str. rewrite str_app_cons, <- str_app_assoc. simpl.
    by autorewrite with pystr_rw. }
  destruct kvs as [|kv' kvs].
  - cbn [map join member_text parse_members]. rewrite <- !str_app_assoc, Hk, read_escape_str.
    rewrite strip_prefix_app, Hv by lia. done.
  - change (join ", " (map member_text ((k, v) :: kv' :: kvs)))
      with (member_text (k, v) ++ ", " ++ join ", " (map member_text (kv' :: kvs))).
    cbn [member_text]. rewrite <- !str_app_assoc. cbn [parse_members].
    rewrite Hk, read_escape_str, strip_prefix_app, Hv by lia.
    rewrite strip_prefix_app, IH; [done | done |]. cbn [List.length map list_max fold_right] in *. lia.
Qed.

Lemma parse_value_dumps (j : json) : reads_back j.
Proof.
  induction j as [| s | l IH | kvs IH] using json_ind_strong; intros [|n] rest Hf; simpl in Hf; try lia.
  - cbn [json_dumps parse_value]. by rewrite strip_prefix_app.
  - cbn [json_dumps parse_value]. unfold encode_str. rewrite str_app_cons, <- str_app_assoc.
    simpl. by rewrite str_app_cons, str_app_nil_l, read_escape_str.
  - cbn [json_dumps]. rewrite <- !str_app_assoc, str_app_cons, str_app_nil_l. cbn [parse_value].
    rewrite (strip_prefix_neq "n"%char), (strip_prefix_neq QUOTE), strip_prefix_single by done.
    destruct l as [|x l].
    + cbn [map join]. by rewrite str_app_nil_l, strip_prefix_app.
    + destruct (join_cons_app ", " (json_dumps x) (map json_dumps l)) as [t Ht].
      assert (Hc : strip_prefix "]" (join ", " (map json_dumps (x :: l)) ++ "]" ++ rest) = None).
      { cbn [map]. rewrite Ht, <- str_app_assoc. apply strip_close_dumps. auto. }
      rewrite Hc, parse_elems_dumps; [done..|]. cbn [List.length map list_max fold_right] in *. lia.
  - cbn [json_dumps]. rewrite <- !str_app_assoc, str_app_cons, str_app_nil_l. cbn [parse_value].
    rewrite (strip_prefix_neq "n"%char), (strip_prefix_neq QUOTE), (strip_prefix_neq "["%char),
      strip_prefix_single by done.
    change (map _ kvs) with (map member_text kvs).
    destruct kvs as [|[k v] kvs].
    + cbn [map join]. by rewrite str_app_nil_l, strip_prefix_app.
    + destruct (join_cons_app ", " (member_text (k, v)) (map member_text kvs)) as [t Ht].
      assert (Hc : strip_prefix "}" (join ", " (map member_text ((k, v) :: kvs)) ++ "}" ++ rest) = None).
      { cbn [map]. rewrite Ht. cbn [member_text]. unfold encode_str.
        rewrite <- !str_app_assoc, str_app_cons. by apply strip_prefix_neq. }
      rewrite Hc, parse_members_dumps; [done..|]. cbn [List.length map list_max fold_right] in *. lia.
Qed.

(** The fuel of a value never exceeds the length of its text. *)
Lemma join_need {A} (need : A -> nat) (text : A -> string) (xs : list A) :
  Forall (fun x => need x <= String.length (text x)) xs ->
  List.length xs + list_max (map need xs) <= 1 + String.length (join ", " (map text xs)).
Proof.
  induction 1 as [|x xs Hx HF IH]; [simpl; lia|].
  destruct xs as [|y xs]; [simpl; lia|].
  change (join ", " (map text (x :: y :: xs))) with (text x ++ ", " ++ join ", " (map text (y :: xs))).
  rewrite !str_length_app. cbn [List.length map list_max fold_right String.length] in *. lia.
Qed.

Lemma json_need_length (j : json) : json_need j <= String.length (json_dumps j).
Proof.
  induction j as [| s | l IH | kvs IH] using json_ind_strong.
  - simpl. lia.
  - simpl. lia.
  - pose proof (join_need json_need json_dumps l IH).
    cbn [json_dumps json_need]. rewrite !str_length_app. cbn [String.length]. lia.
  - assert (H : Forall (fun kv => json_need kv.2 <= String.length (member_text kv)) kvs).
    { refine (Forall_impl _ _ _ IH _). intros [k v] Hv. cbn [fst snd member_text] in *.
      rewrite !str_length_app. lia. }
    apply join_need in H.
    cbn [json_dumps json_need]. rewrite !str_length_app. cbn [String.length].
    change (map (fun kv => match kv with (k, v) => encode_str k ++ ": " ++ json_dumps v end) kvs)
      with (map member_text kvs).
    replace (map (fun kv => match kv with (_, v) => json_need v end) kvs)
      with (map (fun kv => json_need kv.2) kvs) by (apply map_ext; by intros []).
    lia.
Qed.

End Json.
