(* ===== verification/FieldMapper.v ===== *)
(** * FieldMapper: [build_payload] and the topic builders
    (src/ha-ups-mqtt.py, lines 27-57)

    A sensor is one entry of [config["sensors"]]: a YAML mapping read by
    [sensor["key"]], [sensor["friendly_name"]] and the presence tests
    ["unit" in sensor], ["icon" in sensor], ["device_class" in sensor].
    A field that is absent is [None]; [sensor["key"]] and
    [sensor["friendly_name"]] on an absent field raise [KeyError].  An
    optional display field present with an empty YAML value is [null]
    ([SNull]), which the code copies into the payload as it is.

    [build_payload] reads the global [config["mqtt"]["base_topic"]]; the
    model passes that entry as the argument [base_topic], [None] when the
    key is absent, and looks it up where line 45 does, after the friendly
    name.  The payload dict is the
    record [payload]; [payload_items] lists its keys in insertion order,
    the optional ones last, as lines 43-55 insert them. *)

From S2P Require Import Prelude PyStr StatusReader Json.

Module FieldMapper.
Import StatusReader Json.

(** A YAML scalar of an optional display field: a string or [null]. *)
Inductive scalar :=
| SNull
| SStr (s : string).

Definition scalar_json (v : scalar) : json :=
  match v with SNull => JNull | SStr s => JStr s end.

Record sensor := {
  s_key : option string;
  s_friendly_name : option string;
  s_unit : option scalar;
  s_icon : option scalar;
  s_device_class : option scalar
}.

(** The [device_info] dict of [main] (lines 66-72). *)
Record device_info := {
  d_identifiers : list string;
  d_name : string;
  d_model : string;
  d_manufacturer : string;
  d_sw_version : string
}.

Definition device_json (d : device_info) : json :=
  JObj [("identifiers", JArr (map JStr (d_identifiers d)));
        ("name", JStr (d_name d));
        ("model", JStr (d_model d));
        ("manufacturer", JStr (d_manufacturer d));
        ("sw_version", JStr (d_sw_version d))].

Definition build_discovery_topic (entity_id : string) : string :=
  "homeassistant/sensor/" ++ entity_id ++ "/config".

Definition build_state_topic (base_topic entity_id : string) : string :=
  base_topic ++ "/" ++ entity_id ++ "/state".

Local Open Scope py_scope.

(** [f"{device_info['name'].lower().replace(' ', '_')}_{key.replace('.', '_')}"] *)
Definition entity_id_of (device_name key : string) : string :=
  (lower device_name).[" "%char ↦ "_"%char] ++ "_" ++ key.["."%char ↦ "_"%char].

Record payload := {
  p_name : string;
  p_state_topic : string;
  p_unique_id : string;
  p_device : device_info;
  p_unit_of_measurement : option scalar;
  p_icon : option scalar;
  p_device_class : option scalar
}.

(** An optional dict entry: present exactly when the field is. *)
Definition opt_item (k : string) (v : option scalar) : list (string * json) :=
  match v with Some x => [(k, scalar_json x)] | None => [] end.

Definition payload_items (p : payload) : list (string * json) :=
  [("name", JStr (p_name p));
   ("state_topic", JStr (p_state_topic p));
   ("unique_id", JStr (p_unique_id p));
   ("device", device_json (p_device p))]
  ++ opt_item "unit_of_measurement" (p_unit_of_measurement p)
  ++ opt_item "icon" (p_icon p)
  ++ opt_item "device_class" (p_device_class p).

Definition payload_json (p : payload) : json := JObj (payload_items p).

(** [build_payload(sensor, ups_data, device_info)]: [None] when the key
    is not in the status dict, the payload and the value otherwise.  The
    dict literal evaluates [sensor['friendly_name']] (line 44) before
    [config["mqtt"]["base_topic"]] (line 45); [base_topic] is the entry
    [base_topic] of [config["mqtt"]], [None] when absent. *)
Definition build_payload (base_topic : option string) (s : sensor) (ups_data : snapshot)
    (dev : device_info) : py_result (option (payload * string)) :=
  match s_key s with
  | None => inl (KeyError "key")
  | Some key =>
      match ups_data !! key with
      | None => inr None
      | Some value =>
          let entity_id := entity_id_of (d_name dev) key in
          match s_friendly_name s with
          | None => inl (KeyError "friendly_name")
          | Some fname =>
              let! base := getitem "base_topic" base_topic in
              inr (Some ({| p_name := d_name dev ++ " " ++ fname;
                            p_state_topic := build_state_topic base entity_id;
                            p_unique_id := entity_id;
                            p_device := dev;
                            p_unit_of_measurement := s_unit s;
                            p_icon := s_icon s;
                            p_device_class := s_device_class s |}, value))
          end
      end
  end.

(** ** The configuration of the spec's end-to-end scenario *)

Definition office_ups : device_info :=
  {| d_identifiers := ["office"]; d_name := "Office UPS"; d_model := "model";
     d_manufacturer := "manufacturer"; d_sw_version := "nut-upsc-bridge-1" |}.

Definition charge_sensor : sensor :=
  {| s_key := Some "battery.charge"; s_friendly_name := Some "Battery Charge";
     s_unit := Some (SStr "%"); s_icon := None; s_device_class := Some (SStr "battery") |}.

Definition voltage_sensor : sensor :=
  {| s_key := Some "battery.voltage"; s_friendly_name := Some "Battery Voltage";
     s_unit := Some (SStr "V"); s_icon := Some (SStr "mdi:flash"); s_device_class := None |}.

(** ** Lemmas *)

(** A sensor with a key present in the dict and a friendly name gets a
    payload whose [unique_id] is its entity id. *)
Lemma build_payload_ok (base_topic : string) (s : sensor) (data : snapshot)
    (dev : device_info) (key fname value : string) :
  s_key s = Some key -> s_friendly_name s = Some fname -> data !! key = Some value ->
  exists p, build_payload (Some base_topic) s data dev = inr (Some (p, value)) /\
            p_unique_id p = entity_id_of (d_name dev) key.
Proof. intros Hk Hf Hv. unfold build_payload. rewrite Hk, Hv, Hf. simpl. eauto. Qed.

Lemma build_payload_absent (base_topic : option string) (s : sensor) (data : snapshot)
    (dev : device_info) (key : string) :
  s_key s = Some key -> data !! key = None -> build_payload base_topic s data dev = inr None.
Proof. intros Hk Hv. unfold build_payload. by rewrite Hk, Hv. Qed.

(** A payload was built only for a sensor whose key has the value in the
    dict and only if [base_topic] is there; its [unique_id] is the entity
    id and its [state_topic] the state topic of that id. *)
Lemma build_payload_base (base_topic : option string) (s : sensor) (data : snapshot)
    (dev : device_info) p v :
  build_payload base_topic s data dev = inr (Some (p, v)) ->
  exists key base, s_key s = Some key /\ data !! key = Some v /\ base_topic = Some base /\
    p_unique_id p = entity_id_of (d_name dev) key /\
    p_state_topic p = build_state_topic base (p_unique_id p).
Proof.
  unfold build_payload. destruct (s_key s) as [key|]; [|discriminate].
  destruct (data !! key) eqn:Hv; [|discriminate].
  destruct (s_friendly_name s); [|discriminate]. destruct base_topic as [base|]; [|discriminate].
  intros [= <- <-]. by exists key, base.
Qed.

(** The MQTT wildcards ['+'] and ['#'] of an entity id come from the
    device name or the key: [lower] and the two replacements neither add
    nor remove them. *)
Lemma entity_id_plus (device_name key : string) :
  char_in "+"%char (entity_id_of device_name key) = char_in "+"%char device_name || char_in "+"%char key.
Proof.
  unfold entity_id_of. autorewrite with pystr_rw.
  rewrite !char_in_replace_other by discriminate. autorewrite with pystr_rw. simpl.
  done.
Qed.

Lemma entity_id_hash (device_name key : string) :
  char_in "#"%char (entity_id_of device_name key) = char_in "#"%char device_name || char_in "#"%char key.
Proof.
  unfold entity_id_of. autorewrite with pystr_rw.
  rewrite !char_in_replace_other by discriminate. autorewrite with pystr_rw. simpl.
  done.
Qed.

(** ** Theorems *)

(** C23 (finding): the entity id does not determine the key: every key
    with a [.] shares its entity id with the different key in which the
    dots are underscores ([battery.charge] and [battery_charge]), for
    every device name, since line 41 turns both characters into [_]; the
    two sensors then overwrite each other's entry in [last_values]. *)
Theorem entity_id_collision (device_name key : string) :
  char_in "."%char key = true ->
  key <> key.["."%char ↦ "_"%char] /\
  entity_id_of device_name key = entity_id_of device_name key.["."%char ↦ "_"%char].
Proof.
  intros Hdot. split.
  - intros Heq. rewrite Heq, replace_char_removes in Hdot by discriminate. discriminate.
  - unfold entity_id_of. by rewrite replace_char_idem by discriminate.
Qed.

Lemma entity_id_collision_witness :
  "battery.charge" <> "battery_charge" /\
  entity_id_of "Office UPS" "battery.charge" = entity_id_of "Office UPS" "battery_charge".
Proof. apply (entity_id_collision "Office UPS" "battery.charge"). reflexivity. Defined.

(** C22: for one device, keys without an underscore have distinct entity
    ids: the id determines the key. *)
Theorem entity_id_inj (device_name k1 k2 : string) :
  char_in "_"%char k1 = false -> char_in "_"%char k2 = false ->
  entity_id_of device_name k1 = entity_id_of device_name k2 -> k1 = k2.
Proof.
  unfold entity_id_of. intros H1 H2 Heq.
  apply str_app_inv_l, str_app_inv_l in Heq.
  exact (replace_char_inj _ _ _ _ H1 H2 Heq).
Qed.

Lemma entity_id_inj_witness : "battery.charge" = "battery.charge".
Proof.
  apply (entity_id_inj "Office UPS"); reflexivity.
Defined.

(** C15 (error): [build_payload] raises exactly in three cases, in this
    order: the sensor has no [key]; its key is in the status dict and it
    has no [friendly_name]; its key is in the dict, it has a friendly
    name, and [config["mqtt"]] has no [base_topic].  A sensor whose key is
    absent passes silently, whatever else is missing. *)
Theorem build_payload_raises (base_topic : option string) (s : sensor) (data : snapshot)
    (dev : device_info) (e : py_error) :
  build_payload base_topic s data dev = inl e <->
  (s_key s = None /\ e = KeyError "key") \/
  (exists key, s_key s = Some key /\ is_Some (data !! key) /\
               s_friendly_name s = None /\ e = KeyError "friendly_name") \/
  (exists key, s_key s = Some key /\ is_Some (data !! key) /\
               is_Some (s_friendly_name s) /\ base_topic = None /\ e = KeyError "base_topic").
Proof.
  unfold build_payload. split.
  - destruct (s_key s) as [key|]; [|intros [= <-]; by left].
    destruct (data !! key) as [v|] eqn:Hv; [|discriminate].
    destruct (s_friendly_name s) as [fname|].
    2: { intros [= <-]. right. left. exists key. split_and!; [done | by eexists | done | done]. }
    destruct base_topic; cbn; [discriminate|]. intros [= <-]. right. right.
    exists key. split_and!; [done | by eexists | by eexists | done | done].
  - intros [[-> ->]|[(key & -> & [v Hv] & -> & ->)|(key & -> & [v Hv] & [f ->] & -> & ->)]];
      [done| |]; by rewrite Hv.
Qed.

Lemma build_payload_raises_witness :
  build_payload (Some "ups") {| s_key := Some "battery.charge"; s_friendly_name := None;
                         s_unit := None; s_icon := None; s_device_class := None |}
    (<["battery.charge" := "90"]> ∅)
    {| d_identifiers := ["ups"]; d_name := "UPS"; d_model := "model";
       d_manufacturer := "manufacturer"; d_sw_version := "1" |}
  = inl (KeyError "friendly_name").
Proof.
  apply build_payload_raises. right. left. exists "battery.charge".
  split; [reflexivity|]. split; [eexists; reflexivity|]. split; reflexivity.
Defined.

(** C14: the discovery payload of a sensor with data is a dict with
    distinct keys whose [unique_id] is the entity id and whose
    [state_topic] is the state topic of that id; [unit_of_measurement],
    [icon] and [device_class] are present exactly when the sensor has
    the field, with its value. *)
Theorem build_payload_dict (base_topic : option string) (s : sensor) (data : snapshot)
    (dev : device_info) (p : payload) (value : string) :
  build_payload base_topic s data dev = inr (Some (p, value)) ->
  exists key base,
    s_key s = Some key /\ data !! key = Some value /\ base_topic = Some base /\
    NoDup (map fst (payload_items p)) /\
    assoc_lookup "unique_id" (payload_items p) = Some (JStr (entity_id_of (d_name dev) key)) /\
    assoc_lookup "state_topic" (payload_items p) =
      Some (JStr (build_state_topic base (entity_id_of (d_name dev) key))) /\
    assoc_lookup "unit_of_measurement" (payload_items p) = scalar_json <$> s_unit s /\
    assoc_lookup "icon" (payload_items p) = scalar_json <$> s_icon s /\
    assoc_lookup "device_class" (payload_items p) = scalar_json <$> s_device_class s.
Proof.
  unfold build_payload.
  destruct (s_key s) as [key|]; [|discriminate].
  destruct (data !! key) as [v|] eqn:Hv; [|discriminate].
  destruct (s_friendly_name s) as [fname|]; [|discriminate].
  destruct base_topic as [base|]; [|discriminate].
  intros H; injection H as <- <-. exists key, base. do 3 (split; [done|]).
  unfold payload_items; simpl.
  destruct (s_unit s), (s_icon s), (s_device_class s); simpl;
    (split; [apply (bool_decide_unpack _); vm_compute; reflexivity | repeat split]).
Qed.

Lemma build_payload_dict_witness :
  assoc_lookup "unit_of_measurement"
    (payload_items {| p_name := "Office UPS Battery Charge";
                      p_state_topic := build_state_topic "ups" "office_ups_battery_charge";
                      p_unique_id := "office_ups_battery_charge"; p_device := office_ups;
                      p_unit_of_measurement := Some (SStr "%"); p_icon := None;
                      p_device_class := Some (SStr "battery") |})
  = Some (JStr "%").
Proof.
  destruct (build_payload_dict (Some "ups") charge_sensor (<["battery.charge" := "90"]> ∅) office_ups
              {| p_name := "Office UPS Battery Charge";
                 p_state_topic := build_state_topic "ups" "office_ups_battery_charge";
                 p_unique_id := "office_ups_battery_charge"; p_device := office_ups;
                 p_unit_of_measurement := Some (SStr "%"); p_icon := None;
                 p_device_class := Some (SStr "battery") |} "90")
    as (key & base & _ & _ & _ & _ & _ & _ & Hunit & _); [reflexivity|].
  exact Hunit.
Defined.

End FieldMapper.
