(* ===== verification/PollLoop.v ===== *)
(** * PollLoop: the [while True] loop of [main]
    (src/ha-ups-mqtt.py, lines 86-109)

    One iteration reads the status dict with [read_ups], runs the
    per-sensor step over [config["sensors"]] in order and sleeps for
    [ups_conf.get("poll_interval", 30)] seconds.  The per-sensor step
    publishes the discovery payload of every sensor with data, then the
    state value when [last_values.get(entity_id) != value], and records
    the value in [last_values].

    Effects are the [logged] computations of the prelude: the events
    handed to the MQTT client ([Publish]) and to [time.sleep] ([Sleep]),
    in order, followed by the new [last_values] or the exception that
    ends the process.  The two library calls are helpers, not code of
    the repository.  [client.publish] is [mqtt_publish]: paho's topic
    check, which may raise, then the event; its result is ignored, as
    the code does.  [time.sleep] is [time_sleep] on the YAML value that
    [poll_interval] reads
    ([yaml_scalar]): [sleep_arg] takes the integer out of it, or raises
    [TypeError] for [None] and strings, and [sleep] checks that the
    length in nanoseconds fits in CPython's signed 64-bit [_PyTime_t]
    ([OverflowError]) and that it is not negative ([ValueError]).
    The [upsc] runs of successive iterations are the list [runs]: the
    loop model runs one iteration per element.  [config["sensors"]]
    (line 91) and [config["mqtt"]["base_topic"]] (lines 45 and 99) are
    read inside the loop, so [loop_config] holds them as [option]s and
    their absence raises [KeyError] where the code reads them ([Main]
    composes the loop with the start of the program). *)

From S2P Require Import Prelude PyStr StatusReader Json FieldMapper.
From Stdlib Require Import ZArith.

Module PollLoop.
Import StatusReader Json FieldMapper.
Local Open Scope py_scope.

(** What the loop reads from the configuration and from [main]'s locals.
    [base_topic] and [sensors] are looked up inside the loop, so an absent
    entry is [None] here and raises [KeyError] where the code reads it. *)
Inductive yaml_scalar :=
| YInt (n : Z)
| YBool (b : bool)
| YNull
| YStr (s : string).

Record loop_config := {
  c_base_topic : option string;  (* mqtt_conf["base_topic"], config["mqtt"]["base_topic"] *)
  c_ups_name : string;           (* ups_conf["name"] *)
  c_poll_interval : option yaml_scalar;  (* the "poll_interval" entry of ups_conf, if any *)
  c_sensors : option (list sensor);  (* config["sensors"] *)
  c_device : device_info         (* device_info *)
}.

Inductive event :=
| Publish (topic payload : string) (retain : bool)
| Sleep (secs : Z).

(** The dict [last_values]. *)
Abbreviation store := (gmap string string).

Abbreviation upsc_run := (list string -> py_result completed_process).

(** [client.publish(topic, payload, retain=...)]: paho-mqtt 2, with
    protocol MQTT 3.1.1, checks the topic before it queues the message;
    an empty topic, or one with a wildcard ['+'] or ['#'], raises
    [ValueError].  The [MQTTMessageInfo] it returns is not modelled: the
    code never looks at it. *)
Definition mqtt_publish (topic payload : string) (retain : bool) : logged event unit :=
  if String.eqb topic "" then lraise (ValueError "Invalid topic.")
  else if char_in "+"%char topic || char_in "#"%char topic
  then lraise (ValueError "Publish topic cannot contain wildcards.")
  else lemit [Publish topic payload retain].

(** The body of [for sensor in config["sensors"]] (lines 92-107). *)
Definition process_sensor (cfg : loop_config) (ups_data : snapshot)
    (last_values : store) (s : sensor) : logged event store :=
  let+ payload_info := lresult (build_payload (c_base_topic cfg) s ups_data (c_device cfg)) in
  match payload_info with
  | None => lret last_values
  | Some (payload, value) =>
      let entity_id := p_unique_id payload in
      let discovery_topic := build_discovery_topic entity_id in
      let+ base_topic := lresult (getitem "base_topic" (c_base_topic cfg)) in
      let state_topic := build_state_topic base_topic entity_id in
      let+ _ := mqtt_publish discovery_topic (json_dumps (payload_json payload)) true in
      if bool_decide (last_values !! entity_id <> Some value) then
        let+ _ := mqtt_publish state_topic value true in
        lret (<[entity_id := value]> last_values)
      else lret last_values
  end.

(** One poll: lines 89-107. *)
Definition poll_cycle (cfg : loop_config) (run : upsc_run) (last_values : store)
    : logged event store :=
  let+ ups_data := lresult (read_ups run (c_ups_name cfg)) in
  let+ sensors := lresult (getitem "sensors" (c_sensors cfg)) in
  lfoldl (process_sensor cfg ups_data) last_values sensors.

(** [ups_conf.get("poll_interval", 30)]: the default only replaces an
    absent entry; an entry [poll_interval:] with no value is [None]. *)
Definition poll_interval (cfg : loop_config) : yaml_scalar :=
  default (YInt 30%Z) (c_poll_interval cfg).

(** CPython's [_PyTime_t] counts nanoseconds in a signed 64-bit integer. *)
Definition PyTime_MIN : Z := (- 2 ^ 63)%Z.
Definition PyTime_MAX : Z := (2 ^ 63 - 1)%Z.
Definition SEC_TO_NS : Z := (10 ^ 9)%Z.

(** [time.sleep(secs)] on an integer number of seconds: the conversion
    to nanoseconds checks for overflow first ([_PyTime_FromObject]),
    then a negative length raises. *)
Definition sleep (secs : Z) : logged event unit :=
  if negb (Z.leb PyTime_MIN (secs * SEC_TO_NS) && Z.leb (secs * SEC_TO_NS) PyTime_MAX)
  then lraise (OverflowError "timestamp too large to convert to C _PyTime_t")
  else if Z.ltb secs 0 then lraise (ValueError "sleep length must be non-negative")
  else lemit [Sleep secs].

(** The integer [time.sleep] takes from its argument: an [int] (a [bool]
    is one), or [TypeError] for an object that is not a number. *)
Definition sleep_arg (v : yaml_scalar) : py_result Z :=
  match v with
  | YInt n => inr n
  | YBool b => inr (Z.b2z b)
  | YNull => inl (TypeError "NoneType")
  | YStr _ => inl (TypeError "str")
  end.

(** [time.sleep(v)] (line 109). *)
Definition time_sleep (v : yaml_scalar) : logged event unit :=
  let+ secs := lresult (sleep_arg v) in
  sleep secs.

(** One iteration of [while True] (lines 89-109). *)
Definition loop_iteration (cfg : loop_config) (last_values : store) (run : upsc_run)
    : logged event store :=
  let+ last_values' := poll_cycle cfg run last_values in
  let+ _ := time_sleep (poll_interval cfg) in
  lret last_values'.

(** The loop from [last_values = {}] (line 86), for as many iterations as
    [runs] has elements. *)
Definition main_loop (cfg : loop_config) (runs : list upsc_run) : logged event store :=
  lfoldl (loop_iteration cfg) ∅ runs.

(** ** The retained view of the published messages

    A message published with [retain=True] replaces the retained message
    of its topic; a subscriber that connects later receives it.  This is
    the view the Home Assistant hub gets from the events of the loop when
    every publish reaches the broker. *)

Definition retain_event (m : gmap string string) (e : event) : gmap string string :=
  match e with
  | Publish t p true => <[t := p]> m
  | _ => m
  end.

Definition retained (evs : list event) : gmap string string := foldl retain_event ∅ evs.

(** ** The spec's end-to-end scenario *)

Definition scenario_cfg : loop_config :=
  {| c_base_topic := Some "ups"; c_ups_name := "office"; c_poll_interval := None;
     c_sensors := Some [charge_sensor; voltage_sensor]; c_device := office_ups |}.

Definition upsc_prints (kvs : list (string * string)) : upsc_run :=
  fun _ => inr {| returncode := 0; stdout := render kvs |}.

Definition upsc_fails : upsc_run := fun _ => inr {| returncode := 1; stdout := "" |}.

(** ** Topics *)

Lemma state_topic_inj (base e1 e2 : string) :
  build_state_topic base e1 = build_state_topic base e2 -> e1 = e2.
Proof.
  unfold build_state_topic. intros H.
  apply str_app_inv_l, str_app_inv_l, str_app_inv_r in H. done.
Qed.

(** A discovery topic ends in [/config], a state topic in [/state]. *)
Lemma discovery_ne_state (base e1 e2 : string) :
  build_discovery_topic e1 <> build_state_topic base e2.
Proof.
  unfold build_discovery_topic, build_state_topic. intros H.
  change "/config" with ("/" ++ "config") in H.
  rewrite !str_app_assoc in H.
  by apply str_app_suffix_eq in H as [_ ?].
Qed.

(** ** The per-sensor step *)

(** A string in which [client.publish] finds no wildcard. *)
Definition wildcard_free (s : string) : Prop :=
  char_in "+"%char s = false /\ char_in "#"%char s = false.

Definition topic_ok (topic : string) : bool :=
  negb (String.eqb topic "") && negb (char_in "+"%char topic || char_in "#"%char topic).

Lemma mqtt_publish_ok (topic payload : string) (retain : bool) :
  topic_ok topic = true -> mqtt_publish topic payload retain = lemit [Publish topic payload retain].
Proof.
  unfold topic_ok, mqtt_publish. intros H. apply andb_true_iff in H as [H1 H2].
  apply negb_true_iff in H1, H2. by rewrite H1, H2.
Qed.

Lemma mqtt_publish_cases (topic payload : string) (retain : bool) evs r :
  mqtt_publish topic payload retain = (evs, r) ->
  (evs = [] /\ exists e, r = inl e) \/ (evs = [Publish topic payload retain] /\ r = inr tt).
Proof.
  unfold mqtt_publish. destruct (String.eqb _ _); [intros [= <- <-]; eauto|].
  destruct (_ || _); intros [= <- <-]; eauto.
Qed.

(** The longest sleep in seconds whose length in nanoseconds fits in
    [_PyTime_t]: [SLEEP_MAX * 10^9 <= 2^63 - 1 < (SLEEP_MAX + 1) * 10^9]. *)
Definition SLEEP_MAX : Z := 9223372036%Z.

Ltac pytime_consts :=
  change PyTime_MIN with (-9223372036854775808)%Z in *;
  change PyTime_MAX with 9223372036854775807%Z in *;
  change SEC_TO_NS with 1000000000%Z in *; unfold SLEEP_MAX in *.

(** The three outcomes of [time.sleep] on an integer. *)
Lemma sleep_cases (secs : Z) :
  ((0 <= secs <= SLEEP_MAX)%Z /\ sleep secs = lemit [Sleep secs]) \/
  ((SLEEP_MAX < Z.abs secs)%Z /\ sleep secs = lraise (OverflowError "timestamp too large to convert to C _PyTime_t")) \/
  ((- SLEEP_MAX <= secs < 0)%Z /\ sleep secs = lraise (ValueError "sleep length must be non-negative")).
Proof.
  unfold sleep. pytime_consts.
  destruct (Z.leb_spec (-9223372036854775808) (secs * 1000000000)),
           (Z.leb_spec (secs * 1000000000) 9223372036854775807), (Z.ltb_spec secs 0);
    cbn [andb negb]; [right; right | left | right; left ..]; split; auto; lia.
Qed.

(** [time.sleep] within its bounds sleeps. *)
Lemma sleep_ok (secs : Z) : (0 <= secs <= SLEEP_MAX)%Z -> sleep secs = lemit [Sleep secs].
Proof. intros H. destruct (sleep_cases secs) as [[_ ->]|[[? _]|[? _]]]; [done | lia | lia]. Qed.

(** The configured interval is an integer [time.sleep] accepts. *)
Definition sleeps_for (cfg : loop_config) (secs : Z) : Prop :=
  sleep_arg (poll_interval cfg) = inr secs /\ (0 <= secs <= SLEEP_MAX)%Z.

(** The sleep at the end of a turn, as the turn's last step: it sleeps
    for the accepted interval and returns, or raises before any event. *)
Lemma sleep_then_ret (v : yaml_scalar) (l : store) evs r :
  (let+ _ := time_sleep v in lret l) = (evs, r) ->
  (evs = [] /\ exists e, r = inl e) \/
  (exists secs, evs = [Sleep secs] /\ r = inr l /\ sleep_arg v = inr secs /\ (0 <= secs <= SLEEP_MAX)%Z).
Proof.
  unfold time_sleep. destruct (sleep_arg v) as [e|secs]; cbn [lresult lbind]; [intros [= <- <-]; eauto|].
  rewrite lbind_ret_l.
  destruct (sleep_cases secs) as [[? ->]|[[_ ->]|[_ ->]]]; cbn; intros [= <- <-]; [right|left..]; eauto 10.
Qed.

(** Without a [poll_interval] entry, the loop sleeps 30 seconds. *)
Lemma sleeps_for_default (cfg : loop_config) : c_poll_interval cfg = None -> sleeps_for cfg 30%Z.
Proof. intros H. unfold sleeps_for, poll_interval. rewrite H. split; [done | unfold SLEEP_MAX; lia]. Qed.

Lemma time_sleep_ok (cfg : loop_config) (secs : Z) :
  sleeps_for cfg secs -> time_sleep (poll_interval cfg) = lemit [Sleep secs].
Proof.
  intros [Ha Hb]. unfold time_sleep. rewrite Ha. cbn [lresult]. rewrite lbind_ret_l. by apply sleep_ok.
Qed.

Definition is_publish (e : event) : bool :=
  match e with Publish _ _ _ => true | Sleep _ => false end.

(** A topic with a wildcard is refused before anything is sent. *)
Lemma mqtt_publish_wildcard (topic payload : string) (retain : bool) :
  char_in "+"%char topic || char_in "#"%char topic = true ->
  mqtt_publish topic payload retain = lraise (ValueError "Publish topic cannot contain wildcards.").
Proof.
  unfold mqtt_publish. intros H. rewrite H.
  destruct (String.eqb_spec topic "") as [->|]; [discriminate | done].
Qed.

Lemma discovery_topic_wildcard (e : string) :
  char_in "+"%char e || char_in "#"%char e = true ->
  char_in "+"%char (build_discovery_topic e) || char_in "#"%char (build_discovery_topic e) = true.
Proof.
  unfold build_discovery_topic. autorewrite with pystr_rw. simpl.
  destruct (char_in "+"%char e), (char_in "#"%char e); simpl; rewrite ?orb_true_r; done.
Qed.

Lemma discovery_topic_ok (e : string) : wildcard_free e -> topic_ok (build_discovery_topic e) = true.
Proof.
  intros [Hp Hh]. unfold topic_ok, build_discovery_topic. autorewrite with pystr_rw. simpl.
  by rewrite Hp, Hh.
Qed.

Lemma state_topic_ok (base e : string) :
  wildcard_free base -> wildcard_free e -> topic_ok (build_state_topic base e) = true.
Proof.
  intros [Bp Bh] [Hp Hh]. unfold topic_ok, build_state_topic. autorewrite with pystr_rw. simpl.
  rewrite Bp, Bh, Hp, Hh. simpl. destruct base; done.
Qed.

Lemma entity_id_wildcard_free (device_name key : string) :
  wildcard_free device_name -> wildcard_free key -> wildcard_free (entity_id_of device_name key).
Proof.
  intros [Np Nh] [Kp Kh]. split; [rewrite entity_id_plus | rewrite entity_id_hash]; by apply orb_false_iff.
Qed.

Abbreviation discovery_event p :=
  (Publish (build_discovery_topic (p_unique_id p)) (json_dumps (payload_json p)) true).
Abbreviation state_event p v := (Publish (p_state_topic p) v true).

(** The three outcomes of [build_payload] in the per-sensor step. *)
Lemma process_sensor_raise (cfg : loop_config) (data : snapshot) (last : store) (s : sensor) e :
  build_payload (c_base_topic cfg) s data (c_device cfg) = inl e ->
  process_sensor cfg data last s = ([], inl e).
Proof. intros Hp. unfold process_sensor. by rewrite Hp. Qed.

Lemma process_sensor_skip (cfg : loop_config) (data : snapshot) (last : store) (s : sensor) :
  build_payload (c_base_topic cfg) s data (c_device cfg) = inr None ->
  process_sensor cfg data last s = ([], inr last).
Proof. intros Hp. unfold process_sensor. by rewrite Hp. Qed.

(** With a payload, [mqtt_conf["base_topic"]] (line 99) is the base topic
    [build_payload] used, so the state topic is the payload's. *)
Lemma process_sensor_some (cfg : loop_config) (data : snapshot) (last : store) (s : sensor) p v :
  build_payload (c_base_topic cfg) s data (c_device cfg) = inr (Some (p, v)) ->
  process_sensor cfg data last s =
    (let+ _ := mqtt_publish (build_discovery_topic (p_unique_id p)) (json_dumps (payload_json p)) true in
     if bool_decide (last !! p_unique_id p <> Some v) then
       let+ _ := mqtt_publish (p_state_topic p) v true in
       lret (<[p_unique_id p := v]> last)
     else lret last).
Proof.
  intros Hp. destruct (build_payload_base _ _ _ _ _ _ Hp) as (key & base & _ & _ & Hb & _ & Hst).
  unfold process_sensor. rewrite Hp. cbn [lresult]. rewrite lbind_ret_l. cbv beta iota.
  rewrite Hb. cbn [getitem lresult]. rewrite lbind_ret_l. by rewrite <- Hst.
Qed.

Lemma payload_state_topic (cfg : loop_config) (base : string) (s : sensor) (data : snapshot) p v :
  c_base_topic cfg = Some base ->
  build_payload (c_base_topic cfg) s data (c_device cfg) = inr (Some (p, v)) ->
  p_state_topic p = build_state_topic base (p_unique_id p).
Proof.
  intros Hb Hp. destruct (build_payload_base _ _ _ _ _ _ Hp) as (key & base' & _ & _ & Hb' & _ & Hst).
  congruence.
Qed.

(** The events one sensor emits, whether it raises or not: none, or its
    discovery message, or its discovery and state messages. *)
Lemma process_sensor_events (cfg : loop_config) (data : snapshot) (last : store) (s : sensor) evs r :
  process_sensor cfg data last s = (evs, r) ->
  evs = [] \/
  exists p v, build_payload (c_base_topic cfg) s data (c_device cfg) = inr (Some (p, v)) /\
    (evs = [discovery_event p] \/ evs = [discovery_event p; state_event p v]).
Proof.
  destruct (build_payload (c_base_topic cfg) s data (c_device cfg)) as [e|[[p v]|]] eqn:Hp.
  1: rewrite (process_sensor_raise _ _ _ _ _ Hp); intros [= <- _]; by left.
  2: rewrite (process_sensor_skip _ _ _ _ Hp); intros [= <- _]; by left.
  rewrite (process_sensor_some _ _ _ _ _ _ Hp). intros H.
  apply lbind_cases in H as [(e & Hd & _)|(evs1 & [] & evs2 & Hd & Hrest & ->)].
  { apply mqtt_publish_cases in Hd as [[-> _]|[_ [=]]]. by left. }
  apply mqtt_publish_cases in Hd as [[_ [e [=]]]|[-> _]].
  right. exists p, v. split; [done|].
  destruct (bool_decide _) in Hrest.
  - apply lbind_cases in Hrest as [(e & Hs & _)|(evs3 & [] & evs4 & Hs & [= <- _] & ->)].
    + apply mqtt_publish_cases in Hs as [[-> _]|[_ [=]]]. by left.
    + apply mqtt_publish_cases in Hs as [[_ [e [=]]]|[-> _]]. by right.
  - injection Hrest as <- _. by left.
Qed.

(** The outcomes of one sensor that returns: it is skipped, or it
    published its discovery message, then its state message when the
    stored value differs, and stored the value. *)
Lemma process_sensor_success (cfg : loop_config) (data : snapshot) (last : store) (s : sensor) evs last' :
  process_sensor cfg data last s = (evs, inr last') ->
  (build_payload (c_base_topic cfg) s data (c_device cfg) = inr None /\ evs = [] /\ last' = last) \/
  (exists p v, build_payload (c_base_topic cfg) s data (c_device cfg) = inr (Some (p, v)) /\
     evs = discovery_event p ::
           (if bool_decide (last !! p_unique_id p = Some v) then [] else [state_event p v]) /\
     last' = <[p_unique_id p := v]> last).
Proof.
  destruct (build_payload (c_base_topic cfg) s data (c_device cfg)) as [e|[[p v]|]] eqn:Hp.
  1: by rewrite (process_sensor_raise _ _ _ _ _ Hp).
  2: rewrite (process_sensor_skip _ _ _ _ Hp); intros [= <- <-]; by left.
  rewrite (process_sensor_some _ _ _ _ _ _ Hp). intros H. right. exists p, v. split; [done|].
  apply lbind_cases in H as [(e & Hd & [=])|(evs1 & [] & evs2 & Hd & Hrest & ->)].
  apply mqtt_publish_cases in Hd as [[_ [e [=]]]|[-> _]].
  destruct (decide (last !! p_unique_id p = Some v)) as [Heq|Hne].
  - rewrite bool_decide_false in Hrest by tauto. rewrite bool_decide_true by done.
    injection Hrest as <- <-. split; [done|]. by rewrite insert_id.
  - rewrite bool_decide_true in Hrest by done. rewrite bool_decide_false by done.
    apply lbind_cases in Hrest as [(e & Hs & [=])|(evs3 & [] & evs4 & Hs & [= <- <-] & ->)].
    apply mqtt_publish_cases in Hs as [[_ [e [=]]]|[-> _]]. done.
Qed.


Lemma process_sensor_absent (cfg : loop_config) (data : snapshot) (last : store) (s : sensor) key :
  s_key s = Some key -> data !! key = None -> process_sensor cfg data last s = ([], inr last).
Proof.
  intros Hk Hv. apply process_sensor_skip. by apply (build_payload_absent _ _ _ _ key).
Qed.

(** Every entry of [last_values] is the retained state message of its
    entity id. *)
Definition store_retained (base : string) (evs : list event) (last : store) : Prop :=
  forall eid v, last !! eid = Some v -> retained evs !! build_state_topic base eid = Some v.

Lemma store_retained_empty (base : string) : store_retained base [] ∅.
Proof. intros eid v. by rewrite lookup_empty. Qed.

Lemma process_sensor_retained (cfg : loop_config) (base : string) (data : snapshot) tr (last : store)
    s evs last' :
  c_base_topic cfg = Some base -> store_retained base tr last ->
  process_sensor cfg data last s = (evs, inr last') ->
  store_retained base (tr ++ evs) last'.
Proof.
  intros Hb Hinv Hstep eid v Hv. unfold retained in *.
  apply process_sensor_success in Hstep as [(_ & -> & ->)|(p & w & Hp & -> & ->)].
  { rewrite app_nil_r. auto. }
  rewrite (payload_state_topic _ _ _ _ _ _ Hb Hp), foldl_app. cbn [foldl retain_event].
  case_bool_decide as Heq; cbn [foldl retain_event].
  - rewrite insert_id in Hv by done.
    rewrite lookup_insert_ne by apply discovery_ne_state. auto.
  - destruct (decide (p_unique_id p = eid)) as [<-|Hne].
    + rewrite lookup_insert_eq in Hv. injection Hv as <-. by rewrite lookup_insert_eq.
    + rewrite lookup_insert_ne in Hv by done.
      rewrite lookup_insert_ne by (intros ?%state_topic_inj; congruence).
      rewrite lookup_insert_ne by apply discovery_ne_state. auto.
Qed.

Lemma loop_iteration_retained (cfg : loop_config) (base : string) tr (last : store) run evs last' :
  c_base_topic cfg = Some base -> store_retained base tr last ->
  loop_iteration cfg last run = (evs, inr last') ->
  store_retained base (tr ++ evs) last'.
Proof.
  intros Hb Hinv Hit. unfold loop_iteration, poll_cycle in Hit.
  apply lbind_cases in Hit as [(e & _ & [=])|(evs1 & l1 & evs2 & Hcyc & Hrest & ->)].
  apply lbind_cases in Hcyc as [(e & _ & [=])|(evs0 & data & evs1' & Hread & Hcyc & ->)].
  destruct (read_ups run (c_ups_name cfg)); cbn in Hread; [discriminate|].
  injection Hread as <- <-.
  apply lbind_cases in Hcyc as [(e & _ & [=])|(evs0 & ss & evs1 & Hss & Hsens & ->)].
  destruct (c_sensors cfg); cbn in Hss; [|discriminate]. injection Hss as <- <-.
  assert (store_retained base (tr ++ evs1) l1) as Hl1.
  { eapply (lfoldl_inv (fun tr l => store_retained base tr l)); [|exact Hinv|exact Hsens].
    intros; eapply process_sensor_retained; eauto. }
  apply sleep_then_ret in Hrest as [[_ [e [=]]]|(secs & -> & [= <-] & _)].
  intros eid v Hv. unfold retained.
  rewrite !app_nil_l, app_assoc, foldl_app. by apply Hl1.
Qed.

(** The publishing outcome, as an equation, when both topics pass the
    checks of [client.publish]. *)
Lemma process_sensor_payload (cfg : loop_config) (data : snapshot) (last : store) (s : sensor) p v :
  topic_ok (p_state_topic p) = true -> wildcard_free (p_unique_id p) ->
  build_payload (c_base_topic cfg) s data (c_device cfg) = inr (Some (p, v)) ->
  process_sensor cfg data last s =
    (discovery_event p ::
       (if bool_decide (last !! p_unique_id p = Some v) then [] else [state_event p v]),
     inr (<[p_unique_id p := v]> last)).
Proof.
  intros Hb He Hp. rewrite (process_sensor_some _ _ _ _ _ _ Hp).
  rewrite mqtt_publish_ok by (by apply discovery_topic_ok). rewrite lbind_emit.
  destruct (decide (last !! p_unique_id p = Some v)) as [Heq|Hne].
  - rewrite bool_decide_false by tauto. rewrite bool_decide_true by done.
    cbn. by rewrite insert_id.
  - rewrite bool_decide_true by done. rewrite bool_decide_false by done.
    rewrite mqtt_publish_ok by done. rewrite lbind_emit. done.
Qed.

(** A sensor with data, a friendly name and wildcard-free topics. *)
Lemma process_sensor_present (cfg : loop_config) (data : snapshot) (last : store)
    (s : sensor) (base key fname value : string) :
  c_base_topic cfg = Some base ->
  wildcard_free base -> wildcard_free (d_name (c_device cfg)) -> wildcard_free key ->
  s_key s = Some key -> s_friendly_name s = Some fname -> data !! key = Some value ->
  let eid := entity_id_of (d_name (c_device cfg)) key in
  exists discovery_payload,
    process_sensor cfg data last s =
      (Publish (build_discovery_topic eid) discovery_payload true ::
         (if bool_decide (last !! eid = Some value) then []
          else [Publish (build_state_topic base eid) value true]),
       inr (<[eid := value]> last)).
Proof.
  intros Hbt Hb Hn Hkw Hk Hf Hv eid.
  destruct (build_payload_ok base s data (c_device cfg) key fname value Hk Hf Hv)
    as (p & Hp & Hid). rewrite <- Hbt in Hp.
  pose proof (payload_state_topic _ _ _ _ _ _ Hbt Hp) as Hst.
  assert (He : wildcard_free (p_unique_id p)) by (rewrite Hid; by apply entity_id_wildcard_free).
  rewrite (process_sensor_payload _ _ _ _ _ _ ltac:(rewrite Hst; by apply state_topic_ok) He Hp).
  rewrite Hst. subst eid. rewrite <- Hid. eauto.
Qed.

(** ** Theorems on one sensor and one cycle *)

(** C1 (functional, the change tracker): a sensor whose key has the
    value [value] in the status dict publishes its discovery message,
    retained, then a retained state message with [value] on the state
    topic of its entity id exactly when [last_values] does not already
    hold [value] for that id; afterwards [last_values] maps the id to
    [value].  [base_topic] is configured; it, the device name and the key are free of
    the MQTT wildcards [+] and [#], which [client.publish] refuses. *)
Theorem process_sensor_dedup (cfg : loop_config) (data : snapshot) (last : store)
    (s : sensor) (base key fname value : string) :
  c_base_topic cfg = Some base ->
  wildcard_free base -> wildcard_free (d_name (c_device cfg)) -> wildcard_free key ->
  s_key s = Some key -> s_friendly_name s = Some fname -> data !! key = Some value ->
  let eid := entity_id_of (d_name (c_device cfg)) key in
  exists discovery_payload,
    process_sensor cfg data last s =
      (Publish (build_discovery_topic eid) discovery_payload true ::
         (if bool_decide (last !! eid = Some value) then []
          else [Publish (build_state_topic base eid) value true]),
       inr (<[eid := value]> last)).
Proof. apply process_sensor_present. Qed.

Lemma process_sensor_dedup_witness :
  exists pl, process_sensor scenario_cfg (<["battery.charge" := "90"]> ∅)
               (<["office_ups_battery_charge" := "90"]> ∅) charge_sensor
             = ([Publish "homeassistant/sensor/office_ups_battery_charge/config" pl true],
                inr (<["office_ups_battery_charge" := "90"]> ∅)).
Proof.
  destruct (process_sensor_dedup scenario_cfg (<["battery.charge" := "90"]> ∅)
              (<["office_ups_battery_charge" := "90"]> ∅) charge_sensor
              "ups" "battery.charge" "Battery Charge" "90") as [pl Hpl];
    [reflexivity | split; reflexivity | split; reflexivity | split; reflexivity | reflexivity
    | reflexivity | reflexivity |].
  exists pl. rewrite Hpl. vm_compute. reflexivity.
Defined.

(** C16 (error, finding): a device [friendly_name] with an MQTT
    wildcard, [UPS #1] say, puts the wildcard in every entity id and so
    in every discovery topic: the first sensor whose key has a value makes
    [client.publish] raise [ValueError] before any message is sent, and
    the exception ends the program (the spec asks only that the entity id
    be lower case with spaces replaced). *)
Theorem process_sensor_wildcard_name (cfg : loop_config) (data : snapshot) (last : store)
    (s : sensor) (key fname value : string) :
  char_in "+"%char (d_name (c_device cfg)) || char_in "#"%char (d_name (c_device cfg)) = true ->
  is_Some (c_base_topic cfg) ->
  s_key s = Some key -> s_friendly_name s = Some fname -> data !! key = Some value ->
  process_sensor cfg data last s = ([], inl (ValueError "Publish topic cannot contain wildcards.")).
Proof.
  intros Hw [base Hb] Hk Hf Hv.
  destruct (build_payload_ok base s data (c_device cfg) key fname value Hk Hf Hv)
    as (p & Hp & Hid). rewrite <- Hb in Hp.
  rewrite (process_sensor_some _ _ _ _ _ _ Hp).
  rewrite mqtt_publish_wildcard; [done|]. apply discovery_topic_wildcard.
  rewrite Hid, entity_id_plus, entity_id_hash.
  destruct (char_in "+"%char (d_name _)), (char_in "#"%char (d_name _)); simpl in *;
    rewrite ?orb_true_r; done.
Qed.

Definition hash_device : device_info :=
  {| d_identifiers := ["office"]; d_name := "UPS #1"; d_model := "model";
     d_manufacturer := "manufacturer"; d_sw_version := "nut-upsc-bridge-1" |}.

Lemma process_sensor_wildcard_name_witness :
  process_sensor {| c_base_topic := Some "ups"; c_ups_name := "office"; c_poll_interval := None;
                    c_sensors := Some [charge_sensor]; c_device := hash_device |}
                 (<["battery.charge" := "90"]> ∅) ∅ charge_sensor
  = ([], inl (ValueError "Publish topic cannot contain wildcards.")).
Proof.
  apply (process_sensor_wildcard_name _ _ _ _ "battery.charge" "Battery Charge" "90");
    [reflexivity | eexists; reflexivity | reflexivity..].
Defined.

(** Every event one sensor emits is a retained publish on the discovery
    topic of a key present in the dict, or a retained publish of that
    key's value on its state topic. *)
Definition published_for (cfg : loop_config) (data : snapshot) (e : event) : Prop :=
  exists s key value, (exists ss, c_sensors cfg = Some ss /\ s ∈ ss) /\
    s_key s = Some key /\ data !! key = Some value /\
    let eid := entity_id_of (d_name (c_device cfg)) key in
    (exists pl, e = Publish (build_discovery_topic eid) pl true) \/
    (exists base, c_base_topic cfg = Some base /\ e = Publish (build_state_topic base eid) value true).

(** C6 (safety): in one poll cycle, raised or not, every message is
    retained and belongs to a configured sensor whose key is in the
    status dict: a sensor whose key is absent publishes nothing, neither
    discovery nor state, and a state message carries the dict's value. *)
Theorem poll_cycle_publishes_present (cfg : loop_config) (run : upsc_run) (last : store)
    (data : snapshot) evs r :
  read_ups run (c_ups_name cfg) = inr data ->
  poll_cycle cfg run last = (evs, r) ->
  Forall (published_for cfg data) evs.
Proof.
  intros Hread. unfold poll_cycle. rewrite Hread. cbn [lresult]. rewrite lbind_ret_l.
  destruct (c_sensors cfg) as [ss|] eqn:Hss; cbn [getitem lresult]; [|by intros [= <- _]].
  rewrite lbind_ret_l. apply lfoldl_Forall. intros acc s evs' r' Hs Hstep.
  apply process_sensor_events in Hstep as [->|(p & v & Hp & Hevs)]; [done|].
  destruct (build_payload_base _ _ _ _ _ _ Hp) as (key & base & Hk & Hv & Hb & Hid & Hst).
  rewrite Hst, Hid in Hevs.
  assert (Hd : forall pl, published_for cfg data
                 (Publish (build_discovery_topic (entity_id_of (d_name (c_device cfg)) key)) pl true))
    by (intros pl; exists s, key, v; split_and!; eauto).
  destruct Hevs as [->| ->]; repeat constructor; try apply Hd.
  exists s, key, v. split_and!; eauto.
Qed.

Lemma poll_cycle_publishes_present_witness :
  Forall (published_for scenario_cfg (<["battery.charge" := "90"]> ∅))
    (poll_cycle scenario_cfg (upsc_prints [("battery.charge", "90")]) ∅).1.
Proof.
  eapply (poll_cycle_publishes_present scenario_cfg (upsc_prints [("battery.charge", "90")]) ∅);
    [vm_compute; reflexivity | apply surjective_pairing].
Defined.

(** C7 (bounds): one poll hands at most two messages per configured
    sensor to [client.publish], the discovery message and the state
    message, whether the poll raises or not. *)
Theorem poll_cycle_bounded (cfg : loop_config) (run : upsc_run) (last : store) evs r :
  poll_cycle cfg run last = (evs, r) -> List.length evs <= 2 * List.length (default [] (c_sensors cfg)).
Proof.
  unfold poll_cycle. destruct (read_ups run (c_ups_name cfg)) as [e|data]; cbn [lresult].
  - intros [= <- _]. simpl. lia.
  - rewrite lbind_ret_l.
    destruct (c_sensors cfg) as [ss|]; cbn [getitem lresult default]; [|intros [= <- _]; simpl; lia].
    rewrite lbind_ret_l. apply lfoldl_length. intros ? ? ? ? _ Hs.
    apply process_sensor_events in Hs as [->|(p & v & _ & [-> | ->])]; simpl; lia.
Qed.

Lemma poll_cycle_bounded_witness :
  List.length (poll_cycle scenario_cfg
                 (upsc_prints [("battery.charge", "90"); ("battery.voltage", "13.5")]) ∅).1 <= 4.
Proof.
  apply (poll_cycle_bounded scenario_cfg
           (upsc_prints [("battery.charge", "90"); ("battery.voltage", "13.5")]) ∅ _
           (poll_cycle scenario_cfg
              (upsc_prints [("battery.charge", "90"); ("battery.voltage", "13.5")]) ∅).2).
  apply surjective_pairing.
Defined.

(** C17 (error): when [upsc] exits with a non-zero code, an iteration
    publishes nothing, keeps [last_values], and sleeps, provided every
    sensor has a [key] (the lookup [sensor["key"]] happens before the
    dict is consulted) and [time.sleep] accepts the poll interval. *)
Theorem loop_iteration_upsc_failed (cfg : loop_config) (last : store) (run : upsc_run)
    (r : completed_process) (sensors : list sensor) (secs : Z) :
  run ["upsc"; c_ups_name cfg] = inr r -> returncode r <> 0%Z ->
  c_sensors cfg = Some sensors -> Forall (fun s => is_Some (s_key s)) sensors ->
  sleeps_for cfg secs ->
  loop_iteration cfg last run = ([Sleep secs], inr last).
Proof.
  intros Hrun Hrc Hss Hkeys Hsleep. unfold loop_iteration, poll_cycle, read_ups.
  rewrite Hrun. apply Z.eqb_neq in Hrc. cbn [py_bind]. rewrite Hrc. cbn [lresult negb].
  rewrite lbind_ret_l, Hss. cbn [getitem lresult]. rewrite lbind_ret_l. clear Hss.
  assert (lfoldl (process_sensor cfg ∅) last sensors = lret last) as ->.
  { induction Hkeys as [|s ss [key Hk] _ IH]; [done|]. simpl.
    rewrite (process_sensor_absent _ _ _ _ key Hk) by apply lookup_empty. simpl.
    rewrite IH. done. }
  rewrite lbind_ret_l, (time_sleep_ok _ _ Hsleep), lbind_emit. done.
Qed.

Lemma loop_iteration_upsc_failed_witness :
  loop_iteration scenario_cfg ∅ upsc_fails = ([Sleep 30%Z], inr ∅).
Proof.
  apply (loop_iteration_upsc_failed scenario_cfg ∅ upsc_fails {| returncode := 1; stdout := "" |}
           [charge_sensor; voltage_sensor]);
    [reflexivity | discriminate | reflexivity | repeat constructor; eexists; reflexivity
    | by apply sleeps_for_default].
Defined.

(** C18 (error, finding): when [upsc] cannot be run at all
    ([subprocess.run] raises, e.g. [FileNotFoundError] for a missing
    binary), the exception is not caught: the iteration raises before any
    publish or sleep and the loop ends. *)
Theorem loop_iteration_upsc_missing (cfg : loop_config) (last : store) (run : upsc_run)
    (e : py_error) :
  run ["upsc"; c_ups_name cfg] = inl e -> loop_iteration cfg last run = ([], inl e).
Proof. intros Hrun. unfold loop_iteration, poll_cycle, read_ups. by rewrite Hrun. Qed.

Lemma loop_iteration_upsc_missing_witness :
  loop_iteration scenario_cfg ∅ (fun _ => inl (OSError "upsc")) = ([], inl (OSError "upsc")).
Proof. by apply loop_iteration_upsc_missing. Defined.

(** [config["sensors"]] is read in every iteration, after [upsc] ran:
    without it, the iteration raises [KeyError] before any publish or
    sleep. *)
Lemma loop_iteration_no_sensors (cfg : loop_config) (last : store) (run : upsc_run)
    (r : completed_process) :
  run ["upsc"; c_ups_name cfg] = inr r -> c_sensors cfg = None ->
  loop_iteration cfg last run = ([], inl (KeyError "sensors")).
Proof.
  intros Hrun Hss. destruct (read_ups_returns _ _ _ Hrun) as [data Hread].
  unfold loop_iteration, poll_cycle. by rewrite Hread, Hss.
Qed.

(** Without [base_topic], one sensor publishes nothing and keeps
    [last_values]. *)
Lemma process_sensor_no_base (cfg : loop_config) (data : snapshot) (last : store) (s : sensor) evs r :
  c_base_topic cfg = None -> process_sensor cfg data last s = (evs, r) ->
  evs = [] /\ (r = inr last \/ exists e, r = inl e).
Proof.
  intros Hb. destruct (build_payload (c_base_topic cfg) s data (c_device cfg)) as [e|[[p v]|]] eqn:Hp.
  - rewrite (process_sensor_raise _ _ _ _ _ Hp). intros [= <- <-]. eauto.
  - destruct (build_payload_base _ _ _ _ _ _ Hp) as (key & base & _ & _ & Hb' & _). congruence.
  - rewrite (process_sensor_skip _ _ _ _ Hp). intros [= <- <-]. eauto.
Qed.

(** Without [base_topic], a poll publishes nothing at all and keeps
    [last_values]; it returns, or raises at the first sensor with data. *)
Lemma poll_cycle_no_base (cfg : loop_config) (run : upsc_run) (last : store) evs r :
  c_base_topic cfg = None -> poll_cycle cfg run last = (evs, r) ->
  evs = [] /\ (r = inr last \/ exists e, r = inl e).
Proof.
  intros Hb. unfold poll_cycle.
  destruct (read_ups run (c_ups_name cfg)) as [e|data]; cbn [lresult]; [intros [= <- <-]; eauto|].
  rewrite lbind_ret_l.
  destruct (c_sensors cfg) as [ss|]; cbn [getitem lresult]; [|intros [= <- <-]; eauto].
  rewrite lbind_ret_l. revert last evs. induction ss as [|s ss IH]; intros last evs; simpl.
  - intros [= <- <-]. eauto.
  - intros [(e & Hs & ->)|(evs1 & l1 & evs2 & Hs & Hrest & ->)]%lbind_cases.
    + apply process_sensor_no_base in Hs as [-> _]; eauto.
    + apply process_sensor_no_base in Hs as [-> [[= ->]|[e [=]]]]; [|done].
      exact (IH _ _ Hrest).
Qed.

(** So does a whole iteration, but for its sleep. *)
Lemma loop_iteration_no_base (cfg : loop_config) (last : store) (run : upsc_run) evs r :
  c_base_topic cfg = None -> loop_iteration cfg last run = (evs, r) ->
  (evs = [] \/ exists secs, sleep_arg (poll_interval cfg) = inr secs /\ evs = [Sleep secs]) /\
  (r = inr last \/ exists e, r = inl e).
Proof.
  intros Hb. unfold loop_iteration.
  intros [(e & Hc & ->)|(evs1 & l1 & evs2 & Hc & Hrest & ->)]%lbind_cases.
  - destruct (poll_cycle_no_base _ _ _ _ _ Hb Hc) as [-> _]. eauto.
  - destruct (poll_cycle_no_base _ _ _ _ _ Hb Hc) as [-> [[= ->]|[e [=]]]].
    apply sleep_then_ret in Hrest as [[-> [e ->]]|(secs & -> & -> & Ha & _)]; eauto 10.
Qed.

(** ** The change tracker against its abstract specification *)

(** The payloads published on one topic, in order: what a subscriber of
    that topic receives. *)
Definition state_values (topic : string) (evs : list event) : list string :=
  omap (fun e => match e with
                 | Publish t p _ => if bool_decide (t = topic) then Some p else None
                 | Sleep _ => None
                 end) evs.

(** The abstract change tracker of spec section 4.3: given the value last
    published ([prev]) and the value observed in a poll ([None] when the
    field is absent), the values to publish and the new last value. *)
Definition dedup_step (prev : option string) (o : option string) : list string * option string :=
  match o with
  | Some v => if bool_decide (prev = Some v) then ([], prev) else ([v], Some v)
  | None => ([], prev)
  end.

Fixpoint dedup_spec (prev : option string) (obs : list (option string)) : list string :=
  match obs with
  | [] => []
  | o :: r => ((dedup_step prev o).1 ++ dedup_spec (dedup_step prev o).2 r)%list
  end.

(** A sensor the loop can process without raising, and its entity id. *)
Definition sensor_wf (s : sensor) : Prop :=
  (exists key, s_key s = Some key /\ wildcard_free key) /\ is_Some (s_friendly_name s).

Definition sensor_eid (cfg : loop_config) (s : sensor) : option string :=
  entity_id_of (d_name (c_device cfg)) <$> s_key s.

Lemma state_values_app (topic : string) (evs1 evs2 : list event) :
  state_values topic (evs1 ++ evs2) = (state_values topic evs1 ++ state_values topic evs2)%list.
Proof. apply omap_app. Qed.

Lemma state_values_cons (topic t p : string) (b : bool) (evs : list event) :
  state_values topic (Publish t p b :: evs) =
  ((if bool_decide (t = topic) then [p] else []) ++ state_values topic evs)%list.
Proof. cbn. by case_bool_decide. Qed.

Lemma state_values_nil (topic : string) : state_values topic [] = [].
Proof. reflexivity. Qed.

Lemma discovery_state_decide (base e e' : string) :
  bool_decide (build_discovery_topic e' = build_state_topic base e) = false.
Proof. apply bool_decide_false, discovery_ne_state. Qed.

Lemma state_state_decide (base e e' : string) :
  bool_decide (build_state_topic base e' = build_state_topic base e) = bool_decide (e' = e).
Proof.
  apply bool_decide_ext. split; [apply state_topic_inj | by intros ->].
Qed.

#[export] Hint Rewrite state_values_app state_values_cons state_values_nil
  discovery_state_decide state_state_decide : pystr_rw.

(** A sensor of another entity id publishes nothing on [e]'s state topic
    and leaves [e]'s stored value alone. *)
Lemma lbind_inr_step {A B} (c : logged event A) (k : A -> logged event B) evs x evs' r :
  c = (evs, inr x) -> k x = (evs', r) -> lbind c k = ((evs ++ evs')%list, r).
Proof. intros -> Hk. simpl. by rewrite Hk. Qed.

Section WildcardFree.
(** The configuration's base topic and device name pass [client.publish]'s
    checks. *)
Context (cfg : loop_config).
Context (base : string).
Hypothesis Hbt : c_base_topic cfg = Some base.
Hypothesis Hbase : wildcard_free base.
Hypothesis Hname : wildcard_free (d_name (c_device cfg)).

Lemma process_sensor_other (data : snapshot) (last : store) (s : sensor) (e : string) :
  sensor_wf s -> sensor_eid cfg s <> Some e ->
  exists evs last', process_sensor cfg data last s = (evs, inr last') /\
    state_values (build_state_topic base e) evs = [] /\ last' !! e = last !! e.
Proof.
  intros [(key & Hk & Hkw) [fname Hf]] Hne. unfold sensor_eid in Hne. rewrite Hk in Hne. simpl in Hne.
  destruct (data !! key) as [v|] eqn:Hv.
  - destruct (process_sensor_present cfg data last s base key fname v Hbt Hbase Hname Hkw Hk Hf Hv)
      as (pl & ->).
    eexists _, _. split; [done|]. autorewrite with pystr_rw. split.
    + destruct (bool_decide _); [done|]. autorewrite with pystr_rw.
      rewrite bool_decide_false; [done | congruence].
    + rewrite lookup_insert_ne; [done | congruence].
  - rewrite (process_sensor_absent _ _ _ _ key Hk Hv). eauto.
Qed.

Lemma sensors_other (data : snapshot) (last : store) (ss : list sensor) (e : string) :
  Forall (fun s => sensor_wf s /\ sensor_eid cfg s <> Some e) ss ->
  exists evs last', lfoldl (process_sensor cfg data) last ss = (evs, inr last') /\
    state_values (build_state_topic base e) evs = [] /\ last' !! e = last !! e.
Proof.
  intros Hss. revert last. induction Hss as [|s ss [Hwf Hne] _ IH]; intros last.
  - by eexists [], last.
  - destruct (process_sensor_other data last s e Hwf Hne) as (evs1 & l1 & H1 & Hv1 & Hl1).
    destruct (IH l1) as (evs2 & l2 & H2 & Hv2 & Hl2).
    exists (evs1 ++ evs2)%list, l2. cbn [lfoldl]. rewrite (lbind_inr _ _ _ _ H1), H2.
    split; [done|]. rewrite state_values_app, Hv1, Hv2. split; [done|]. congruence.
Qed.

(** The sensor of [e] itself does what the abstract step says. *)
Lemma process_sensor_self (data : snapshot) (last : store) (s : sensor) key :
  sensor_wf s -> s_key s = Some key ->
  let e := entity_id_of (d_name (c_device cfg)) key in
  exists evs last', process_sensor cfg data last s = (evs, inr last') /\
    state_values (build_state_topic base e) evs = (dedup_step (last !! e) (data !! key)).1 /\
    last' !! e = (dedup_step (last !! e) (data !! key)).2.
Proof.
  intros [(key' & Hk' & Hkw) [fname Hf]] Hk e. rewrite Hk in Hk'. injection Hk' as <-.
  destruct (data !! key) as [v|] eqn:Hv.
  - destruct (process_sensor_present cfg data last s base key fname v Hbt Hbase Hname Hkw Hk Hf Hv)
      as (pl & ->).
    eexists _, _. split; [done|]. autorewrite with pystr_rw. cbn [dedup_step].
    destruct (decide (last !! e = Some v)) as [Heq|Hne].
    + rewrite !bool_decide_true by done. simpl. by rewrite insert_id.
    + rewrite !bool_decide_false by done. autorewrite with pystr_rw.
      rewrite bool_decide_true by done. simpl. by rewrite lookup_insert_eq.
  - rewrite (process_sensor_absent _ _ _ _ key Hk Hv). eauto.
Qed.

(** One iteration, seen from the state topic of one entity. *)
Lemma loop_iteration_entity (last : store) (run : upsc_run) (data : snapshot)
    pre s post key (secs : Z) :
  read_ups run (c_ups_name cfg) = inr data -> sleeps_for cfg secs ->
  c_sensors cfg = Some (pre ++ s :: post)%list -> sensor_wf s -> s_key s = Some key ->
  let e := entity_id_of (d_name (c_device cfg)) key in
  Forall (fun s' => sensor_wf s' /\ sensor_eid cfg s' <> Some e) (pre ++ post)%list ->
  exists evs last', loop_iteration cfg last run = (evs, inr last') /\
    state_values (build_state_topic base e) evs = (dedup_step (last !! e) (data !! key)).1 /\
    last' !! e = (dedup_step (last !! e) (data !! key)).2.
Proof.
  intros Hread Hsleep Hss Hwf Hk e Hothers.
  apply Forall_app in Hothers as [Hpre Hpost].
  destruct (sensors_other data last pre e Hpre) as (evs1 & l1 & H1 & Hv1 & Hl1).
  destruct (process_sensor_self data l1 s key Hwf Hk) as (evs2 & l2 & H2 & Hv2 & Hl2).
  destruct (sensors_other data l2 post e Hpost) as (evs3 & l3 & H3 & Hv3 & Hl3).
  eexists _, l3. split.
  { unfold loop_iteration, poll_cycle. rewrite Hread. cbn [lresult]. rewrite lbind_ret_l, Hss.
    cbn [getitem lresult]. rewrite lbind_ret_l.
    eapply lbind_inr_step; [|by rewrite (time_sleep_ok _ _ Hsleep)].
    rewrite lfoldl_app. eapply lbind_inr_step; [exact H1|]. cbn [lfoldl].
    eapply lbind_inr_step; [exact H2 | exact H3]. }
  fold e in Hl2, Hv2. rewrite !state_values_app, Hv1, Hv3, Hv2, Hl3. cbn.
  rewrite !app_nil_r, Hl2, Hl1. done.
Qed.

(** A well-formed sensor never raises. *)
Lemma process_sensor_returns (data : snapshot) (last : store) (s : sensor) :
  sensor_wf s -> exists evs last', process_sensor cfg data last s = (evs, inr last').
Proof.
  intros [(key & Hk & Hkw) [fname Hf]].
  destruct (data !! key) as [v|] eqn:Hv.
  - destruct (process_sensor_present cfg data last s base key fname v Hbt Hbase Hname Hkw Hk Hf Hv)
      as (pl & ->). eauto.
  - rewrite (process_sensor_absent _ _ _ _ key Hk Hv). eauto.
Qed.

Lemma poll_cycle_returns (run : upsc_run) (last : store) (data : snapshot) (sensors : list sensor) :
  read_ups run (c_ups_name cfg) = inr data ->
  c_sensors cfg = Some sensors -> Forall sensor_wf sensors ->
  exists evs last', poll_cycle cfg run last = (evs, inr last') /\
    Forall (fun e => is_publish e = true) evs.
Proof.
  intros Hread Hss Hwf. unfold poll_cycle. rewrite Hread. cbn [lresult]. rewrite lbind_ret_l, Hss.
  cbn [getitem lresult]. rewrite lbind_ret_l.
  destruct (lfoldl_returns (process_sensor cfg data) last sensors) as (evs & l' & H).
  { intros acc s Hs. apply process_sensor_returns. by eapply Forall_forall. }
  exists evs, l'. split; [done|]. eapply lfoldl_Forall; [|exact H].
  intros ? ? ? ? _ Hs. apply process_sensor_events in Hs as [->|(p & v & _ & [-> | ->])];
    repeat constructor.
Qed.

(** An iteration whose [upsc] runs publishes, then sleeps, and returns. *)
Lemma loop_iteration_returns (last : store) (run : upsc_run) (r : completed_process)
    (sensors : list sensor) (secs : Z) :
  run ["upsc"; c_ups_name cfg] = inr r -> sleeps_for cfg secs ->
  c_sensors cfg = Some sensors -> Forall sensor_wf sensors ->
  exists pubs last', loop_iteration cfg last run = ((pubs ++ [Sleep secs])%list, inr last') /\
    Forall (fun e => is_publish e = true) pubs.
Proof.
  intros Hr Hsleep Hss Hwf. destruct (read_ups_returns _ _ _ Hr) as [data Hread].
  destruct (poll_cycle_returns run last data sensors Hread Hss Hwf) as (pubs & l' & Hc & Hp).
  exists pubs, l'. split; [|done]. unfold loop_iteration.
  eapply lbind_inr_step; [exact Hc|]. by rewrite (time_sleep_ok _ _ Hsleep).
Qed.

End WildcardFree.

(** The invariant over a run of the loop from [last_values = {}]. *)
Lemma main_loop_inv (cfg : loop_config) (base : string) (runs : list upsc_run) evs (last : store) :
  c_base_topic cfg = Some base ->
  main_loop cfg runs = (evs, inr last) -> store_retained base evs last.
Proof.
  intros Hb Hrun. change evs with ([] ++ evs)%list.
  eapply (lfoldl_inv (fun tr l => store_retained base tr l));
    [|apply store_retained_empty|exact Hrun].
  intros; eapply loop_iteration_retained; eauto.
Qed.

(** ** Theorems on runs of the loop *)

(** C3 (invariant, spec section 3): after any number of iterations of
    [while True] from [last_values = {}], every entry [entity_id -> v] of
    [last_values] is the retained message of the state topic
    [base_topic/entity_id/state]: the id the store tracks is the suffix of
    the state topic, and the value it remembers is the one last published
    there.  Discovery messages never land on a state topic, and distinct
    ids have distinct state topics. *)
Theorem main_loop_store_retained (cfg : loop_config) (base : string) (runs : list upsc_run) evs
    (last : store) :
  c_base_topic cfg = Some base -> main_loop cfg runs = (evs, inr last) ->
  forall entity_id v, last !! entity_id = Some v ->
  retained evs !! build_state_topic base entity_id = Some v.
Proof. apply main_loop_inv. Qed.

(** The other sensors of a configuration without entity-id collisions. *)
Lemma others_of_nodup (cfg : loop_config) pre s post key :
  Forall sensor_wf (pre ++ s :: post)%list ->
  NoDup (omap (sensor_eid cfg) (pre ++ s :: post)%list) -> s_key s = Some key ->
  Forall (fun s' => sensor_wf s' /\ sensor_eid cfg s' <> Some (entity_id_of (d_name (c_device cfg)) key))
         (pre ++ post)%list.
Proof.
  intros Hwf Hnd Hk. set (e := entity_id_of (d_name (c_device cfg)) key).
  assert (Hs : sensor_eid cfg s = Some e) by (unfold sensor_eid; by rewrite Hk).
  rewrite omap_app in Hnd.
  replace (omap (sensor_eid cfg) (s :: post)) with (e :: omap (sensor_eid cfg) post) in Hnd
    by (cbn; by rewrite Hs).
  apply NoDup_app in Hnd as (_ & Hdisj & Hnd). apply NoDup_cons in Hnd as [Hpost _].
  apply Forall_app in Hwf as [Hwpre Hwpost%Forall_cons]. destruct Hwpost as [_ Hwpost].
  apply Forall_app; split; apply Forall_forall; intros s' Hs'.
  - rewrite Forall_forall in Hwpre. split; [auto|]. intros He.
    apply (Hdisj e); [apply list_elem_of_omap; eauto | by left].
  - rewrite Forall_forall in Hwpost. split; [auto|]. intros He.
    apply Hpost, list_elem_of_omap; eauto.
Qed.

(** C2 (refinement, the change tracker over time): if [upsc] answers
    every poll, [time.sleep] accepts the poll interval and every configured
    sensor has a key and a friendly name with no two sensors on one
    entity id, then the loop never raises, and the values published on
    the state topic of a sensor over the successive polls are those of
    the abstract change tracker [dedup_spec] run on the values its key has
    in the polls: absent values publish nothing, and a value is published
    exactly when it differs from the one published before it. *)
Theorem main_loop_refines_dedup (cfg : loop_config) (runs : list upsc_run) (datas : list snapshot)
    (base : string) (sensors : list sensor) (s : sensor) (key : string) (secs : Z) :
  Forall2 (fun run data => read_ups run (c_ups_name cfg) = inr data) runs datas ->
  sleeps_for cfg secs ->
  c_base_topic cfg = Some base -> wildcard_free base -> wildcard_free (d_name (c_device cfg)) ->
  c_sensors cfg = Some sensors ->
  Forall sensor_wf sensors -> NoDup (omap (sensor_eid cfg) sensors) ->
  s ∈ sensors -> s_key s = Some key ->
  exists evs last, main_loop cfg runs = (evs, inr last) /\
    state_values (build_state_topic base (entity_id_of (d_name (c_device cfg)) key)) evs
    = dedup_spec None (map (fun data => data !! key) datas).
Proof.
  intros Hruns Hsleep Hbt Hb Hn Hsens Hwf Hnd Hs Hk.
  apply list_elem_of_split in Hs as (pre & post & Hss).
  rewrite Hss in Hwf, Hnd, Hsens.
  pose proof (others_of_nodup cfg pre s post key Hwf Hnd Hk) as Hothers.
  assert (Hws : sensor_wf s) by (rewrite Forall_app, Forall_cons in Hwf; tauto).
  set (e := entity_id_of (d_name (c_device cfg)) key) in *.
  unfold main_loop. change (@None string) with ((∅ : store) !! e).
  generalize (∅ : store). induction Hruns as [|run data runs datas Hread _ IH]; intros last.
  - by eexists [], last.
  - destruct (loop_iteration_entity cfg base Hbt Hb Hn last run data pre s post key secs Hread Hsleep Hsens Hws Hk Hothers)
      as (evs1 & l1 & H1 & Hv1 & Hl1).
    destruct (IH l1) as (evs2 & l2 & H2 & Hv2).
    exists (evs1 ++ evs2)%list, l2. cbn [lfoldl]. split; [by eapply lbind_inr_step|].
    fold e in Hv1, Hl1. rewrite state_values_app, Hv1, Hv2, Hl1. done.
Qed.

Lemma main_loop_refines_dedup_witness :
  exists evs last,
    main_loop scenario_cfg [upsc_prints [("battery.charge", "90")]; upsc_prints [("battery.charge", "90")];
                            upsc_prints [("battery.charge", "85")]] = (evs, inr last) /\
    state_values (build_state_topic "ups"
                    (entity_id_of (d_name (c_device scenario_cfg)) "battery.charge")) evs
    = dedup_spec None (map (fun data : snapshot => data !! "battery.charge")
                         [<["battery.charge" := "90"]> ∅; <["battery.charge" := "90"]> ∅;
                          <["battery.charge" := "85"]> ∅]).
Proof.
  apply (main_loop_refines_dedup scenario_cfg _
           [<["battery.charge" := "90"]> ∅; <["battery.charge" := "90"]> ∅; <["battery.charge" := "85"]> ∅]
           "ups" [charge_sensor; voltage_sensor] charge_sensor "battery.charge" 30%Z).
  - repeat constructor; vm_compute; reflexivity.
  - by apply sleeps_for_default.
  - reflexivity.
  - split; reflexivity.
  - split; reflexivity.
  - reflexivity.
  - repeat apply Forall_cons_2; try apply Forall_nil_2;
      (split; [eexists; split; [reflexivity | split; reflexivity] | eexists; reflexivity]).
  - apply (bool_decide_unpack _). vm_compute. reflexivity.
  - by left.
  - reflexivity.
Defined.

Lemma main_loop_store_retained_witness :
  retained (main_loop scenario_cfg [upsc_prints [("battery.charge", "90")]]).1
    !! build_state_topic "ups" "office_ups_battery_charge" = Some "90".
Proof.
  apply (main_loop_store_retained scenario_cfg "ups" [upsc_prints [("battery.charge", "90")]] _
           (<["office_ups_battery_charge" := "90"]> ∅)).
  - reflexivity.
  - vm_compute. reflexivity.
  - vm_compute. reflexivity.
Defined.

(** A poll that returns is handed over whole when the sleep after it
    raises: its messages, then the sleep's exception. *)
Lemma loop_iteration_sleep_raises (cfg : loop_config) (last : store) (run : upsc_run)
    evs (last' : store) (e : py_error) :
  poll_cycle cfg run last = (evs, inr last') -> time_sleep (poll_interval cfg) = ([], inl e) ->
  loop_iteration cfg last run = (evs, inl e).
Proof.
  intros Hcyc Hs. unfold loop_iteration. rewrite Hcyc. cbn [lbind]. rewrite Hs. cbn. by rewrite !app_nil_r.
Qed.

(** C19 (error, spec gap): a negative [poll_interval] is not rejected when
    the configuration is loaded; the first poll publishes its messages and
    then [time.sleep] raises [ValueError], which ends the loop. *)
Theorem loop_iteration_negative_interval (cfg : loop_config) (last : store) (run : upsc_run)
    evs (last' : store) (secs : Z) :
  poll_cycle cfg run last = (evs, inr last') ->
  sleep_arg (poll_interval cfg) = inr secs -> (- SLEEP_MAX <= secs < 0)%Z ->
  loop_iteration cfg last run = (evs, inl (ValueError "sleep length must be non-negative")).
Proof.
  intros Hcyc Ha Hneg. apply (loop_iteration_sleep_raises _ _ _ _ _ _ Hcyc).
  unfold time_sleep. rewrite Ha. cbn [lresult]. rewrite lbind_ret_l.
  by destruct (sleep_cases secs) as [[? _]|[[? _]|[_ ->]]]; [lia | lia |].
Qed.

Definition negative_cfg : loop_config :=
  {| c_base_topic := Some "ups"; c_ups_name := "office"; c_poll_interval := Some (YInt (-1)%Z);
     c_sensors := Some [charge_sensor]; c_device := office_ups |}.

Lemma loop_iteration_negative_interval_witness :
  loop_iteration negative_cfg ∅ (upsc_prints [("battery.charge", "90")]) =
    ((poll_cycle negative_cfg (upsc_prints [("battery.charge", "90")]) ∅).1,
     inl (ValueError "sleep length must be non-negative")).
Proof.
  apply (loop_iteration_negative_interval _ _ _ _ (<["office_ups_battery_charge" := "90"]> ∅) (-1)%Z).
  - vm_compute. reflexivity.
  - reflexivity.
  - unfold SLEEP_MAX. lia.
Defined.

(** C21 (error, spec gap): the code puts no upper bound on
    [poll_interval] either: an interval beyond [SLEEP_MAX] = 9223372036
    seconds (about 292 years), whose length in nanoseconds does not fit
    in CPython's signed 64-bit [_PyTime_t], passes startup; the first
    poll publishes its messages and then [time.sleep] raises
    [OverflowError], which ends the loop. *)
Theorem loop_iteration_interval_overflow (cfg : loop_config) (last : store) (run : upsc_run)
    evs (last' : store) (secs : Z) :
  poll_cycle cfg run last = (evs, inr last') ->
  sleep_arg (poll_interval cfg) = inr secs -> (SLEEP_MAX < Z.abs secs)%Z ->
  loop_iteration cfg last run = (evs, inl (OverflowError "timestamp too large to convert to C _PyTime_t")).
Proof.
  intros Hcyc Ha Hbig. apply (loop_iteration_sleep_raises _ _ _ _ _ _ Hcyc).
  unfold time_sleep. rewrite Ha. cbn [lresult]. rewrite lbind_ret_l.
  by destruct (sleep_cases secs) as [[? _]|[[_ ->]|[? _]]]; [lia | | lia].
Qed.

Definition huge_interval_cfg : loop_config :=
  {| c_base_topic := Some "ups"; c_ups_name := "office"; c_poll_interval := Some (YInt 10000000000%Z);
     c_sensors := Some [charge_sensor]; c_device := office_ups |}.

Lemma loop_iteration_interval_overflow_witness :
  loop_iteration huge_interval_cfg ∅ (upsc_prints [("battery.charge", "90")]) =
    ((poll_cycle huge_interval_cfg (upsc_prints [("battery.charge", "90")]) ∅).1,
     inl (OverflowError "timestamp too large to convert to C _PyTime_t")).
Proof.
  apply (loop_iteration_interval_overflow _ _ _ _ (<["office_ups_battery_charge" := "90"]> ∅)
           10000000000%Z).
  - vm_compute. reflexivity.
  - reflexivity.
  - unfold SLEEP_MAX. lia.
Defined.

Definition null_interval_cfg : loop_config :=
  {| c_base_topic := Some "ups"; c_ups_name := "office"; c_poll_interval := Some YNull;
     c_sensors := Some [charge_sensor]; c_device := office_ups |}.

(** C20 (error, finding): [ups_conf.get("poll_interval", 30)] falls back
    to 30 only when the entry is absent.  An entry [poll_interval:] left
    empty in the YAML file loads as [None], and a quoted one as a
    string: the first poll publishes its messages, then [time.sleep]
    raises [TypeError], which ends the loop. *)
Theorem loop_iteration_interval_not_number (cfg : loop_config) (last : store) (run : upsc_run)
    evs (last' : store) :
  poll_cycle cfg run last = (evs, inr last') ->
  c_poll_interval cfg = Some YNull \/ (exists s, c_poll_interval cfg = Some (YStr s)) ->
  exists t, loop_iteration cfg last run = (evs, inl (TypeError t)).
Proof.
  intros Hcyc Hv. destruct Hv as [Hv|[s Hv]];
    [exists "NoneType" | exists "str"]; apply (loop_iteration_sleep_raises _ _ _ _ _ _ Hcyc);
    unfold time_sleep, poll_interval; by rewrite Hv.
Qed.

Lemma loop_iteration_interval_not_number_witness :
  exists t, loop_iteration null_interval_cfg ∅ (upsc_prints [("battery.charge", "90")]) =
    ((poll_cycle null_interval_cfg (upsc_prints [("battery.charge", "90")]) ∅).1, inl (TypeError t)).
Proof.
  apply (loop_iteration_interval_not_number _ _ _ _ (<["office_ups_battery_charge" := "90"]> ∅)).
  - vm_compute. reflexivity.
  - by left.
Defined.

End PollLoop.
