(* ===== verification/Broker.v ===== *)
(** * Broker: what a subscriber of the broker reads

    [main] hands every message to [client.publish(topic, payload,
    retain=True)] (src/ha-ups-mqtt.py, lines 102 and 106) and ignores
    what it returns.  A Home Assistant hub subscribed to the broker reads
    the discovery payload as JSON (the reader of [Json]) and then
    subscribes to the [state_topic] it names.  This file shows that the
    messages of one sensor are consistent for such a reader: the
    discovery payload names its own topic and the topic of the state
    messages that follow it.  The client and the broker themselves are
    library and network code and are not modelled. *)

From S2P Require Import Prelude PyStr StatusReader Json FieldMapper PollLoop.
From Stdlib Require Import ZArith.

Module Broker.
Import StatusReader Json FieldMapper PollLoop.

(** The hub reads a discovery payload back as the dict it encodes. *)
Lemma loads_payload (p : payload) : json_loads (json_dumps (payload_json p)) = Some (payload_json p).
Proof.
  unfold json_loads.
  pose proof (parse_value_dumps (payload_json p) _ "" (json_need_length (payload_json p))) as H.
  rewrite str_app_nil_r in H. by rewrite H.
Qed.

(** ** Theorems *)

(** C4 (functional, what the hub reads): the first message of a sensor
    is its discovery message; read as JSON, its payload is a dict whose
    [unique_id] names the discovery topic it came on, and whose
    [state_topic] is the topic of every message that follows it for
    that sensor: each is a retained publish on that topic.  The state
    topic is computed twice in the code, inside [build_payload] from
    [config["mqtt"]["base_topic"]] (line 45) and in the loop from
    [mqtt_conf["base_topic"]] (line 99), and the two agree. *)
Theorem discovery_names_state_topic (cfg : loop_config) (data : snapshot) (last : store) (s : sensor)
    dtopic body retain rest r :
  process_sensor cfg data last s = (Publish dtopic body retain :: rest, r) ->
  exists kvs id st,
    json_loads body = Some (JObj kvs) /\
    assoc_lookup "unique_id" kvs = Some (JStr id) /\ dtopic = build_discovery_topic id /\
    assoc_lookup "state_topic" kvs = Some (JStr st) /\
    Forall (fun e => exists v, e = Publish st v true) rest.
Proof.
  intros H.
  destruct (process_sensor_events _ _ _ _ _ _ H) as [[=]|(p & v & _ & Hev)].
  assert (Hd : dtopic = build_discovery_topic (p_unique_id p) /\ body = json_dumps (payload_json p))
    by (destruct Hev; split; congruence).
  assert (Hr : rest = [] \/ rest = [state_event p v]) by (destruct Hev; [left | right]; congruence).
  destruct Hd as [-> ->]. exists (payload_items p), (p_unique_id p), (p_state_topic p).
  rewrite loads_payload. split_and!; try done.
  destruct Hr as [-> | ->]; repeat constructor; eauto.
Qed.

Definition charge_payload : payload :=
  {| p_name := "Office UPS Battery Charge"; p_state_topic := "ups/office_ups_battery_charge/state";
     p_unique_id := "office_ups_battery_charge"; p_device := office_ups;
     p_unit_of_measurement := Some (SStr "%"); p_icon := None; p_device_class := Some (SStr "battery") |}.

Lemma discovery_names_state_topic_witness :
  exists kvs id st,
    json_loads (json_dumps (payload_json charge_payload)) = Some (JObj kvs) /\
    assoc_lookup "unique_id" kvs = Some (JStr id) /\
    "homeassistant/sensor/office_ups_battery_charge/config" = build_discovery_topic id /\
    assoc_lookup "state_topic" kvs = Some (JStr st) /\
    Forall (fun e => exists v, e = Publish st v true) [Publish "ups/office_ups_battery_charge/state" "90" true].
Proof.
  apply (discovery_names_state_topic scenario_cfg (<["battery.charge" := "90"]> ∅) ∅ charge_sensor
           _ _ true _ (inr (<["office_ups_battery_charge" := "90"]> ∅))).
  vm_compute. reflexivity.
Defined.

End Broker.
