(* ===== verification/Setup.v ===== *)
(** * Setup: the start of [main] (src/ha-ups-mqtt.py, lines 59-84)

    [load_config] (lines 9-13) reads [config.yaml], an input here: absent,
    not YAML, or parsed into a mapping, [None] or another object;
    [as_config] is [config["mqtt"]] on what it returned, which only a
    dict accepts.  [main] reads [config["mqtt"]] and [config["ups"]], builds the
    [device_info] dict, creates the MQTT client, sets the credentials
    when both a user name and a password are given, connects and starts
    the client's network thread.  The YAML configuration is external:
    the model takes it as records whose required keys are [option]s (an
    absent key makes [d[k]] raise [KeyError]).  The client calls are
    the list [client_call], in the order [main] makes them; a call is
    recorded once it returned.  [client.connect] opens the connection
    and may raise [OSError]: what the network answers is an input
    ([connect_run]), as the output of [upsc] is for the loop.

    The keys [config["sensors"]] and [mqtt_conf["base_topic"]] are not
    read here: the loop reads them, in every iteration ([Main] composes
    [startup] with the loop and proves what their absence does). *)

From S2P Require Import Prelude PyStr StatusReader Json FieldMapper PollLoop.
From Stdlib Require Import ZArith.

Module Setup.
Import FieldMapper PollLoop.
Local Open Scope py_scope.

Record ups_conf := {
  u_name : option string;
  u_friendly_name : option string;
  u_sw_version : option string;
  u_poll_interval : option yaml_scalar
}.

Record mqtt_conf := {
  m_broker : option string;
  m_port : option Z;
  m_base_topic : option string;
  m_client_id : option string;
  m_username : option string;
  m_password : option string
}.

Record config := {
  cfg_mqtt : option mqtt_conf;
  cfg_ups : option ups_conf;
  cfg_sensors : option (list sensor)
}.

(** What [yaml.safe_load] returns for [config.yaml]: a mapping, [None]
    (an empty file, or a document [null]) or another object (a list or
    a scalar at the top level), by its Python type name. *)
Inductive yaml_doc :=
| YDict (c : config)
| YNone
| YOther (type_name : string).

(** [config.yaml] as the process finds it: absent, not YAML, or parsed. *)
Inductive config_file :=
| NoFile
| Unparsable (msg : string)
| Parsed (d : yaml_doc).

Definition CONFIG_FILE : string := "config.yaml".

(** Lines 11-13: [open] raises [FileNotFoundError] on a missing file and
    [yaml.safe_load] raises [yaml.YAMLError] on text that is not YAML. *)
Definition load_config (f : config_file) : py_result yaml_doc :=
  match f with
  | NoFile => inl (FileNotFoundError CONFIG_FILE)
  | Unparsable msg => inl (YAMLError msg)
  | Parsed d => inr d
  end.

(** [config["mqtt"]] (line 63) on what [load_config] returned: only a
    dict can be indexed by a string; [None], a list or a scalar raises
    [TypeError]. *)
Definition as_config (d : yaml_doc) : py_result config :=
  match d with
  | YDict c => inr c
  | YNone => inl (TypeError "NoneType")
  | YOther t => inl (TypeError t)
  end.

(** The truth value of a string from [d.get(k)]: present and not empty. *)
Definition truthy (v : option string) : bool :=
  match v with Some s => negb (String.eqb s "") | None => false end.

Inductive client_call :=
| NewClient (client_id : string)                       (* mqtt.Client(client_id=..., MQTTv311) *)
| UsernamePwSet (username password : string)           (* client.username_pw_set *)
| Connect (host : string) (port : Z) (keepalive : Z)   (* client.connect *)
| LoopStart.                                           (* client.loop_start *)

(** The [device_info] dict (lines 66-72): [identifiers] is evaluated
    before [name]. *)
Definition make_device_info (u : ups_conf) : py_result device_info :=
  let! name := getitem "name" (u_name u) in
  let! friendly := getitem "friendly_name" (u_friendly_name u) in
  inr {| d_identifiers := [name]; d_name := friendly; d_model := "model";
         d_manufacturer := "manufacturer";
         d_sw_version := default "nut-upsc-bridge-1" (u_sw_version u) |}.

(** What the network answers to [client.connect(host, port, 60)]: paho
    opens the socket there, and the call returns or raises [OSError]
    (connection refused, unknown host, timeout). *)
Abbreviation connect_run := (string -> Z -> py_result unit).

(** Lines 74-84: the calls made on the client, in order, up to an
    exception; a call is recorded once it has returned.  The arguments of
    [client.connect] are evaluated before the call, so a missing [broker]
    or [port] raises after the client was created and before it connects;
    an [OSError] of [client.connect] is not caught either. *)
Definition client_setup (m : mqtt_conf) (net : connect_run) : logged client_call unit :=
  let+ _ := lemit [NewClient (default "" (m_client_id m))] in
  let+ _ := (if truthy (m_username m) && truthy (m_password m) then
               let+ user := lresult (getitem "username" (m_username m)) in
               let+ pw := lresult (getitem "password" (m_password m)) in
               lemit [UsernamePwSet user pw]
             else lret tt) in
  let+ host := lresult (getitem "broker" (m_broker m)) in
  let+ port := lresult (getitem "port" (m_port m)) in
  let+ _ := lresult (net host port) in
  lemit [Connect host port 60%Z; LoopStart].

(** Lines 61-84: the configuration sections and the device dict the loop
    uses, with the client calls made. *)
Definition startup (c : config) (net : connect_run) : logged client_call (mqtt_conf * ups_conf * device_info) :=
  let+ m := lresult (getitem "mqtt" (cfg_mqtt c)) in
  let+ u := lresult (getitem "ups" (cfg_ups c)) in
  let+ dev := lresult (make_device_info u) in
  let+ _ := client_setup m net in
  lret (m, u, dev).

(** ** Lemmas *)

Lemma truthy_some (v : option string) : truthy v = true -> exists s, v = Some s /\ s <> "".
Proof.
  destruct v as [s|]; simpl; [|discriminate]. intros H. exists s. split; [done|].
  intros ->. discriminate.
Qed.

(** The credential calls of [client_setup]. *)
Definition credential_calls (m : mqtt_conf) : list client_call :=
  if truthy (m_username m) && truthy (m_password m)
  then [UsernamePwSet (default "" (m_username m)) (default "" (m_password m))] else [].

Lemma client_setup_creds (m : mqtt_conf) :
  (if truthy (m_username m) && truthy (m_password m) then
     let+ user := lresult (getitem "username" (m_username m)) in
     let+ pw := lresult (getitem "password" (m_password m)) in
     lemit [UsernamePwSet user pw]
   else lret tt) = lemit (credential_calls m).
Proof.
  unfold credential_calls.
  destruct (truthy (m_username m)) eqn:Hu; [|done]. destruct (truthy (m_password m)) eqn:Hp; [|done].
  apply truthy_some in Hu as (user & -> & _), Hp as (pw & -> & _). done.
Qed.

(** The device dict of a [ups] section with a name and a friendly name. *)
Definition device_of (u : ups_conf) (name fname : string) : device_info :=
  {| d_identifiers := [name]; d_name := fname; d_model := "model"; d_manufacturer := "manufacturer";
     d_sw_version := default "nut-upsc-bridge-1" (u_sw_version u) |}.

(** With the required keys present, the start of [main] is decided by
    the answer of [client.connect]. *)
Lemma startup_present (c : config) (net : connect_run) (m : mqtt_conf) (u : ups_conf)
    name fname broker port :
  cfg_mqtt c = Some m -> cfg_ups c = Some u -> u_name u = Some name ->
  u_friendly_name u = Some fname -> m_broker m = Some broker -> m_port m = Some port ->
  startup c net =
    match net broker port with
    | inl err => (NewClient (default "" (m_client_id m)) :: credential_calls m, inl err)
    | inr _ =>
        ((NewClient (default "" (m_client_id m)) :: credential_calls m
            ++ [Connect broker port 60%Z; LoopStart])%list,
         inr (m, u, device_of u name fname))
    end.
Proof.
  intros Hm Hu Hn Hf Hb Hp. unfold startup.
  rewrite Hm. cbn [getitem lresult]. rewrite lbind_ret_l.
  rewrite Hu. cbn [getitem lresult]. rewrite lbind_ret_l.
  unfold make_device_info. rewrite Hn, Hf. cbn [getitem lresult py_bind]. rewrite lbind_ret_l.
  unfold client_setup. rewrite client_setup_creds, Hb, Hp. cbn [getitem lresult].
  rewrite !lbind_ret_l. destruct (net broker port); cbn; by rewrite ?app_nil_r.
Qed.

(** ** Theorems *)

(** C24 (functional): with the required keys present and a broker that
    accepts the connection, the start of [main] creates the client with
    the configured client id (or [""]), sets the credentials exactly when
    both the user name and the password are non-empty, connects to the
    broker with keepalive 60 and starts the network thread, in that
    order; the device dict has the UPS name as its only identifier, the
    friendly name, the fixed model and manufacturer, and the configured
    [sw_version] or ["nut-upsc-bridge-1"]. *)
Theorem startup_ok (c : config) (net : connect_run) (m : mqtt_conf) (u : ups_conf)
    name fname broker port :
  cfg_mqtt c = Some m -> cfg_ups c = Some u -> u_name u = Some name ->
  u_friendly_name u = Some fname -> m_broker m = Some broker -> m_port m = Some port ->
  net broker port = inr tt ->
  startup c net =
    ((NewClient (default "" (m_client_id m)) :: credential_calls m ++ [Connect broker port 60%Z; LoopStart])%list,
     inr (m, u, {| d_identifiers := [name]; d_name := fname; d_model := "model";
                   d_manufacturer := "manufacturer";
                   d_sw_version := default "nut-upsc-bridge-1" (u_sw_version u) |})).
Proof.
  intros Hm Hu Hn Hf Hb Hp Hnet. by rewrite (startup_present c net m u name fname broker port), Hnet.
Qed.

Definition sample_mqtt : mqtt_conf :=
  {| m_broker := Some "localhost"; m_port := Some 1883%Z; m_base_topic := Some "ups";
     m_client_id := None; m_username := Some "bridge"; m_password := Some "" |}.

Definition sample_ups : ups_conf :=
  {| u_name := Some "office"; u_friendly_name := Some "Office UPS"; u_sw_version := None;
     u_poll_interval := None |}.

Definition office_ups_named : device_info :=
  {| d_identifiers := ["office"]; d_name := "Office UPS"; d_model := "model";
     d_manufacturer := "manufacturer"; d_sw_version := "nut-upsc-bridge-1" |}.

(** A broker that accepts every connection, and one that refuses them. *)
Definition broker_up : connect_run := fun _ _ => inr tt.
Definition broker_down : connect_run := fun _ _ => inl (OSError "[Errno 111] Connection refused").

Lemma startup_ok_witness :
  startup {| cfg_mqtt := Some sample_mqtt; cfg_ups := Some sample_ups; cfg_sensors := None |} broker_up =
    ([NewClient ""; Connect "localhost" 1883 60; LoopStart],
     inr (sample_mqtt, sample_ups, office_ups_named)).
Proof.
  apply (startup_ok _ broker_up sample_mqtt sample_ups "office" "Office UPS" "localhost" 1883%Z);
    reflexivity.
Defined.

(** C26 (error): [client.connect] (line 83) is not guarded: when the
    broker refuses the connection or cannot be reached, the [OSError] it
    raises ends [main] after the client was created and its credentials
    set, before [client.loop_start] and before the loop; there is no
    retry. *)
Theorem startup_connect_fails (c : config) (net : connect_run) (m : mqtt_conf) (u : ups_conf)
    name fname broker port (err : py_error) :
  cfg_mqtt c = Some m -> cfg_ups c = Some u -> u_name u = Some name ->
  u_friendly_name u = Some fname -> m_broker m = Some broker -> m_port m = Some port ->
  net broker port = inl err ->
  startup c net = (NewClient (default "" (m_client_id m)) :: credential_calls m, inl err).
Proof.
  intros Hm Hu Hn Hf Hb Hp Hnet. by rewrite (startup_present c net m u name fname broker port), Hnet.
Qed.

Lemma startup_connect_fails_witness :
  startup {| cfg_mqtt := Some sample_mqtt; cfg_ups := Some sample_ups; cfg_sensors := None |} broker_down =
    ([NewClient ""], inl (OSError "[Errno 111] Connection refused")).
Proof.
  apply (startup_connect_fails _ broker_down sample_mqtt sample_ups "office" "Office UPS" "localhost" 1883%Z);
    reflexivity.
Defined.

(** A call that talks to the broker. *)
Definition connects (call : client_call) : bool :=
  match call with Connect _ _ _ | LoopStart => true | _ => false end.

(** C25 (safety): a start of [main] that raises never completes
    [client.connect] nor reaches [client.loop_start], whatever the
    network answers: a missing required key ([mqtt], [ups], [name],
    [friendly_name], [broker], [port]) or a refused connection ends the
    program after at most the creation of the client and the setting of
    its credentials. *)
Theorem startup_raises_no_connect (c : config) (net : connect_run) evs (e : py_error) :
  startup c net = (evs, inl e) -> Forall (fun call => connects call = false) evs.
Proof.
  unfold startup.
  destruct (cfg_mqtt c) as [m|]; cbn [getitem lresult]; [rewrite lbind_ret_l | by intros [= <- _]].
  destruct (cfg_ups c) as [u|]; cbn [getitem lresult]; [rewrite lbind_ret_l | by intros [= <- _]].
  unfold make_device_info.
  destruct (u_name u); cbn [getitem lresult py_bind]; [|by intros [= <- _]].
  destruct (u_friendly_name u); cbn [getitem lresult py_bind]; [rewrite lbind_ret_l | by intros [= <- _]].
  unfold client_setup. rewrite client_setup_creds.
  assert (Hc : Forall (fun call => connects call = false)
                 (NewClient (default "" (m_client_id m)) :: credential_calls m)).
  { unfold credential_calls. destruct (_ && _); repeat constructor. }
  destruct (m_broker m), (m_port m); cbn; try (intros [= <- _]; by rewrite ?app_nil_r).
  destruct (net _ _); cbn; [intros [= <- _]; by rewrite ?app_nil_r | discriminate].
Qed.

Definition no_broker_config : config :=
  {| cfg_mqtt := Some {| m_broker := None; m_port := Some 1883%Z; m_base_topic := Some "ups";
                         m_client_id := Some "bridge"; m_username := Some "u";
                         m_password := Some "p" |};
     cfg_ups := Some sample_ups; cfg_sensors := None |}.

Lemma startup_raises_no_connect_witness :
  Forall (fun call => connects call = false) [NewClient "bridge"; UsernamePwSet "u" "p"].
Proof.
  apply (startup_raises_no_connect no_broker_config broker_up _ (KeyError "broker")). reflexivity.
Defined.

End Setup.
