(* ===== verification/Main.v ===== *)
(** * Main: [main] as a whole (src/ha-ups-mqtt.py, lines 59-109)

    [main] is [config = load_config()], the start of [Setup] on what it
    loaded, and the loop of [PollLoop] ([main_setup] is everything up to
    the first [upsc]): the configuration file, the configuration
    sections, the device dict and the client calls, then
    [last_values = {}] and [while True].  [config.yaml] is an input
    ([Setup.config_file]): a missing, unparsable or non-mapping file ends
    [main] before any client call.  What the network answers to
    [client.connect] is an input too ([Setup.connect_run]).  The loop reads its
    configuration lazily: [ups_conf["name"]] (line 89, present since
    [startup] read it), [config["sensors"]] (line 91),
    [config["mqtt"]["base_topic"]] (lines 45 and 99) and
    [ups_conf.get("poll_interval", 30)] (line 109), which
    [loop_config_of] hands over as the entries of the dicts, absent ones
    as [None].  A trace of [main] is the client calls ([Call]) followed by
    the events of the loop ([Loop]). *)

From S2P Require Import Prelude PyStr StatusReader Json FieldMapper PollLoop Setup.
From Stdlib Require Import ZArith.

Module Main.
Import StatusReader FieldMapper PollLoop Setup.
Local Open Scope py_scope.

Inductive main_event :=
| Call (call : client_call)   (* mqtt.Client, username_pw_set, connect, loop_start *)
| Loop (e : event).           (* client.publish, time.sleep *)

(** What the loop reads of the configuration, [ups_conf] and [device_info]. *)
Definition loop_config_of (c : config) (m : mqtt_conf) (u : ups_conf) (name : string)
    (dev : device_info) : loop_config :=
  {| c_base_topic := m_base_topic m; c_ups_name := name; c_poll_interval := u_poll_interval u;
     c_sensors := cfg_sensors c; c_device := dev |}.

(** Lines 60-89 up to the first [upsc]: [config = load_config()], the
    start of [Setup] on it, and [ups_conf["name"]] for [read_ups]; the
    result is what the loop reads. *)
Definition main_setup (file : config_file) (net : connect_run) : logged client_call loop_config :=
  let+ doc := lresult (load_config file) in
  let+ c := lresult (as_config doc) in
  let+ setup := startup c net in
  let '(m, u, dev) := setup in
  let+ name := lresult (getitem "name" (u_name u)) in
  lret (loop_config_of c m u name dev).

(** [main()], run for as many iterations of [while True] as [runs] has
    answers of [upsc]. *)
Definition main (file : config_file) (net : connect_run) (runs : list upsc_run) : logged main_event store :=
  let+ cfg := lmap Call (main_setup file net) in
  lmap Loop (main_loop cfg runs).

(** ** Lemmas *)

Lemma main_setup_parsed (c : config) (net : connect_run) calls m u dev name :
  startup c net = (calls, inr (m, u, dev)) -> u_name u = Some name ->
  main_setup (Parsed (YDict c)) net = (calls, inr (loop_config_of c m u name dev)).
Proof.
  intros Hs Hn. unfold main_setup. cbn -[startup]. rewrite Hs. cbn. rewrite Hn. cbn. by rewrite app_nil_r.
Qed.

(** After a start that returns, [main] is the loop on the configuration
    it read. *)
Lemma main_started (file : config_file) (net : connect_run) (runs : list upsc_run) calls cfg :
  main_setup file net = (calls, inr cfg) ->
  main file net runs = ((map Call calls ++ map Loop (main_loop cfg runs).1)%list, (main_loop cfg runs).2).
Proof. intros Hs. unfold main. by rewrite (lbind_lmap_inr _ _ _ _ _ Hs). Qed.

(** Without [base_topic], the loop's trace is sleeps only. *)
Lemma main_loop_no_base (cfg : loop_config) (runs : list upsc_run) (secs : Z) :
  c_base_topic cfg = None -> sleep_arg (poll_interval cfg) = inr secs ->
  exists n, (main_loop cfg runs).1 = repeat (Sleep secs) n.
Proof.
  intros Hb Ha. unfold main_loop. generalize (∅ : store) as last.
  induction runs as [|run runs IH]; intros last; [by exists 0|]. cbn [lfoldl].
  destruct (loop_iteration cfg last run) as [evs r] eqn:Hit.
  destruct (loop_iteration_no_base _ _ _ _ _ Hb Hit) as [Hevs [->|[e ->]]];
    (destruct Hevs as [->|(secs' & Ha' & ->)]; [|rewrite Ha in Ha'; injection Ha' as <-]).
  - cbn [lbind]. destruct (IH last) as [n Hn].
    destruct (lfoldl (loop_iteration cfg) last runs) as [evs' r'] eqn:Hrest. cbn in *. subst evs'.
    by exists n.
  - cbn [lbind]. destruct (IH last) as [n Hn].
    destruct (lfoldl (loop_iteration cfg) last runs) as [evs' r'] eqn:Hrest. cbn in *. subst evs'.
    by exists (S n).
  - by exists 0.
  - by exists 1.
Qed.

(** ** Theorems *)

(** C8 (error, finding): a configuration without [sensors] passes the
    start of [main]: the client is created, connects and starts its
    network thread; then the first iteration runs [upsc] and raises
    [KeyError('sensors')] before any publish, which ends the program
    (the spec asks that configuration errors stop it at startup, before
    the loop). *)
Theorem main_no_sensors (c : config) (net : connect_run) (run : upsc_run) (runs : list upsc_run)
    calls m u dev name r :
  startup c net = (calls, inr (m, u, dev)) -> u_name u = Some name ->
  cfg_sensors c = None -> run ["upsc"; name] = inr r ->
  main (Parsed (YDict c)) net (run :: runs) = (map Call calls, inl (KeyError "sensors")).
Proof.
  intros Hs Hn Hss Hrun. rewrite (main_started _ _ _ _ _ (main_setup_parsed _ _ _ _ _ _ _ Hs Hn)).
  unfold main_loop. cbn [lfoldl].
  rewrite (loop_iteration_no_sensors (loop_config_of c m u name dev) ∅ run r Hrun Hss).
  cbn. by rewrite app_nil_r.
Qed.

Definition sensorless_config : config :=
  {| cfg_mqtt := Some sample_mqtt; cfg_ups := Some sample_ups; cfg_sensors := None |}.

Lemma main_no_sensors_witness :
  main (Parsed (YDict sensorless_config)) broker_up [upsc_prints [("battery.charge", "90")]]
  = ([Call (NewClient ""); Call (Connect "localhost" 1883 60); Call LoopStart],
     inl (KeyError "sensors")).
Proof.
  apply (main_no_sensors sensorless_config broker_up _ [] [NewClient ""; Connect "localhost" 1883 60; LoopStart]
           sample_mqtt sample_ups office_ups_named "office"
           {| returncode := 0; stdout := render [("battery.charge", "90")] |}); reflexivity.
Defined.

(** C9 (error, finding): [config["mqtt"]["base_topic"]] is read only
    when a payload is built.  Without it [main] starts, connects, and
    then publishes nothing, ever: after the client calls its trace is
    sleeps only, of the configured interval, for as long as it runs (it
    raises [KeyError] at the first sensor whose key the UPS reports). *)
Theorem main_no_base_topic (c : config) (net : connect_run) (runs : list upsc_run) calls m u dev name
    (secs : Z) :
  startup c net = (calls, inr (m, u, dev)) -> u_name u = Some name -> m_base_topic m = None ->
  sleep_arg (default (YInt 30%Z) (u_poll_interval u)) = inr secs ->
  exists n, (main (Parsed (YDict c)) net runs).1 =
            (map Call calls ++ repeat (Loop (Sleep secs)) n)%list.
Proof.
  intros Hs Hn Hb Ha. rewrite (main_started _ _ _ _ _ (main_setup_parsed _ _ _ _ _ _ _ Hs Hn)). cbn [fst].
  destruct (main_loop_no_base (loop_config_of c m u name dev) runs secs Hb Ha) as [k ->].
  exists k. by rewrite map_repeat.
Qed.

Definition baseless_mqtt : mqtt_conf :=
  {| m_broker := Some "localhost"; m_port := Some 1883%Z; m_base_topic := None;
     m_client_id := None; m_username := None; m_password := None |}.

Definition baseless_config : config :=
  {| cfg_mqtt := Some baseless_mqtt; cfg_ups := Some sample_ups; cfg_sensors := Some [charge_sensor] |}.

Lemma main_no_base_topic_witness :
  exists n, (main (Parsed (YDict baseless_config)) broker_up [upsc_prints [("ups.status", "OL")]; upsc_fails]).1 =
    (map Call [NewClient ""; Connect "localhost" 1883 60; LoopStart] ++ repeat (Loop (Sleep 30)) n)%list.
Proof.
  apply (main_no_base_topic baseless_config broker_up _ [NewClient ""; Connect "localhost" 1883 60; LoopStart]
           baseless_mqtt sample_ups office_ups_named "office"); reflexivity.
Defined.

(** C10 (error): when [config.yaml] is missing, is not YAML, or holds
    no mapping (an empty file loads as [None]), [main] raises the error
    of [load_config] or of [config["mqtt"]] before it creates the
    client: no client call, no [upsc], no publish. *)
Theorem main_config_unloadable (file : config_file) (net : connect_run) (runs : list upsc_run)
    (e : py_error) :
  (let! doc := load_config file in as_config doc) = inl e ->
  main file net runs = ([], inl e).
Proof.
  intros He. unfold main, main_setup.
  destruct (load_config file) as [e'|doc]; cbn in He |- *; [by simplify_eq|].
  destruct (as_config doc); cbn in *; by simplify_eq.
Qed.

Lemma main_config_unloadable_witness :
  main (Parsed YNone) broker_up [upsc_prints [("battery.charge", "90")]] = ([], inl (TypeError "NoneType")).
Proof. apply main_config_unloadable. reflexivity. Defined.

End Main.
