(* ===== verification/LoopTree.v ===== *)
(** * LoopTree: [main]'s [while True] as an interaction tree
    (src/ha-ups-mqtt.py, lines 86-109)

    [PollLoop] runs the loop for as many turns as it is given results of
    [upsc]; the loop itself never stops.  This file models it as an
    interaction tree that runs forever: [ITree.iter] over [while_body],
    whose state is [last_values].  The tree talks to the environment
    through the events [bridgeE]: [Upsc] is [subprocess.run], answered by
    an [OSError] or a completed process; [Emit] hands a message to
    [client.publish] or an interval to [time.sleep]; [Raise] is an
    uncaught exception, which ends [main] (its answer type is empty, so
    nothing follows it).  The loop's result type is [void]: [main] never
    returns normally.

    Between two [upsc] calls the body is the [loop_iteration] of
    [PollLoop], replayed as events in the order the code makes them.
    The liveness theorem shows that under a well-formed configuration the
    loop never raises and sleeps infinitely often, whatever [upsc]
    prints, as long as it can be run; [sleeps_forever] is a coinductive
    predicate (Paco) whose every step is an inductive run to the next
    [time.sleep]. *)

From S2P Require Import Prelude PyStr StatusReader Json FieldMapper PollLoop.
From Stdlib Require Import ZArith.
From ITree Require Import ITree.
From Paco Require Import paco.

Module LoopTree.
Import StatusReader FieldMapper PollLoop.

(** What the loop asks of the outside world. *)
Variant bridgeE : Type -> Type :=
| Upsc (args : list string) : bridgeE (py_result completed_process)  (* subprocess.run *)
| Emit (e : event) : bridgeE unit                                     (* client.publish, time.sleep *)
| Raise (err : py_error) : bridgeE void.                              (* uncaught exception *)

(** The events of a list, in order, then [t]. *)
Fixpoint emit_then {R} (evs : list event) (t : itree bridgeE R) : itree bridgeE R :=
  match evs with
  | [] => t
  | e :: rest => Vis (Emit e) (fun _ => emit_then rest t)
  end.

Definition raise {R} (err : py_error) : itree bridgeE R :=
  Vis (Raise err) (fun v : void => match v with end).

(** A [logged] computation as events: what it emitted, then its
    exception or the continuation on its value. *)
Definition replay {A R} (c : logged event A) (k : A -> itree bridgeE R) : itree bridgeE R :=
  emit_then c.1 (match c.2 with inl err => raise err | inr x => k x end).

(** One turn of [while True] (lines 89-109): [read_ups] calls [upsc],
    then the turn runs on its answer. *)
Definition while_body (cfg : loop_config) (last_values : store) : itree bridgeE (store + void) :=
  Vis (Upsc ["upsc"; c_ups_name cfg])
      (fun r => replay (loop_iteration cfg last_values (fun _ => r)) (fun last' => Ret (inl last'))).

(** Lines 86-109: [last_values = {}] and the loop. *)
Definition main_loop_tree (cfg : loop_config) : itree bridgeE void :=
  ITree.iter (while_body cfg) ∅.

(** ** Liveness: the loop sleeps again and again *)

(** [until_sleep r t]: on every path of [t] along which [upsc] can be
    run, [t] reaches a [time.sleep] after finitely many steps, publishing
    on the way and raising nothing, and what follows the sleep is in
    [r].  An [upsc] that cannot be run is the environment's failure, not
    the loop's: the paths it answers are not constrained. *)
Inductive until_sleep (r : itree bridgeE void -> Prop) : itree bridgeE void -> Prop :=
| us_tau t u : observe t = TauF u -> until_sleep r u -> until_sleep r t
| us_publish t k topic payload retain :
    observe t = VisF (Emit (Publish topic payload retain)) k -> until_sleep r (k tt) ->
    until_sleep r t
| us_upsc t args (k : py_result completed_process -> itree bridgeE void) :
    observe t = VisF (Upsc args) k -> (forall cp, until_sleep r (k (inr cp))) -> until_sleep r t
| us_sleep t k secs : observe t = VisF (Emit (Sleep secs)) k -> r (k tt) -> until_sleep r t.

Lemma until_sleep_mon : monotone1 until_sleep.
Proof.
  intros t r r' H LE.
  induction H; [eapply us_tau | eapply us_publish | eapply us_upsc | eapply us_sleep]; eauto.
Qed.
#[local] Hint Resolve until_sleep_mon : paco.

(** Sleeping infinitely often and never raising. *)
Definition sleeps_forever (t : itree bridgeE void) : Prop := paco1 until_sleep bot1 t.

(** The continuation [ITree.iter] puts after each turn. *)
Definition next_turn (cfg : loop_config) (lr : store + void) : itree bridgeE void :=
  match lr with
  | inl l => Tau (ITree.iter (while_body cfg) l)
  | inr v => Ret v
  end.

Lemma iter_observe (cfg : loop_config) (l : store) :
  observe (ITree.iter (while_body cfg) l) = observe (ITree.bind (while_body cfg l) (next_turn cfg)).
Proof. reflexivity. Qed.

Lemma emit_then_app {R} (evs1 evs2 : list event) (t : itree bridgeE R) :
  emit_then (evs1 ++ evs2) t = emit_then evs1 (emit_then evs2 t).
Proof. induction evs1 as [|e evs1 IH]; simpl; [done|]. by rewrite IH. Qed.

(** Publishing messages keeps the loop on its way to the next sleep. *)
Lemma until_sleep_publishes {R} (r : itree bridgeE void -> Prop) (pubs : list event)
    (t : itree bridgeE R) (k : R -> itree bridgeE void) :
  Forall (fun e => is_publish e = true) pubs ->
  until_sleep r (ITree.bind t k) -> until_sleep r (ITree.bind (emit_then pubs t) k).
Proof.
  intros Hp Ht. induction Hp as [|[topic payload retain|secs] pubs Hpub _ IH]; [done | |done].
  eapply us_publish; [cbn; reflexivity | exact IH].
Qed.

Section Liveness.
(** A configuration under which no turn of the loop raises once [upsc]
    has run: topics free of wildcards, every sensor with a key free of
    wildcards and a friendly name, and an interval [time.sleep] accepts. *)
Context (cfg : loop_config) (base : string) (sensors : list sensor).
Hypothesis Hbt : c_base_topic cfg = Some base.
Hypothesis Hbase : wildcard_free base.
Hypothesis Hname : wildcard_free (d_name (c_device cfg)).
Hypothesis Hss : c_sensors cfg = Some sensors.
Hypothesis Hsensors : Forall sensor_wf sensors.
Context (secs : Z).
Hypothesis Hsleep : sleeps_for cfg secs.

(** One turn reaches its [time.sleep], and then the next turn. *)
Lemma turn_until_sleep (r : itree bridgeE void -> Prop) (last : store) :
  (forall l t, observe t = TauF (ITree.iter (while_body cfg) l) -> r t) ->
  until_sleep r (ITree.iter (while_body cfg) last).
Proof.
  intros Hr.
  apply (us_upsc _ _ ["upsc"; c_ups_name cfg]
           (fun x => ITree.bind (replay (loop_iteration cfg last (fun _ => x))
                                        (fun l' => Ret (inl l'))) (next_turn cfg)));
    [rewrite iter_observe; reflexivity|].
  intros cp.
  destruct (loop_iteration_returns cfg base Hbt Hbase Hname last (fun _ => inr cp) cp sensors secs eq_refl
                                   Hsleep Hss Hsensors)
    as (pubs & l' & -> & Hp).
  unfold replay. cbn [fst snd]. rewrite emit_then_app.
  apply until_sleep_publishes; [done|].
  eapply us_sleep; [cbn; reflexivity|]. apply (Hr l'). reflexivity.
Qed.

Lemma sleeps_forever_turns (t : itree bridgeE void) (l : store) :
  observe t = TauF (ITree.iter (while_body cfg) l) -> sleeps_forever t.
Proof.
  revert t l. pcofix CIH. intros t l Ht. pfold.
  eapply us_tau; [exact Ht|]. apply turn_until_sleep.
  intros l' t' Ht'. right. by eapply CIH.
Qed.

End Liveness.

(** ** Theorems *)

(** C5 (liveness): under a configuration whose base topic, device name
    and sensor keys are free of MQTT wildcards, whose sensors all have a
    key and a friendly name, and whose poll interval [time.sleep] accepts,
    [main]'s [while True] never raises and calls [time.sleep] infinitely
    often, whatever [upsc] prints and whatever it returns, as long as it
    can be run: between two sleeps it runs [upsc] once and hands finitely
    many messages to [client.publish]. *)
Theorem main_loop_tree_sleeps_forever (cfg : loop_config) (base : string) (sensors : list sensor)
    (secs : Z) :
  c_base_topic cfg = Some base -> wildcard_free base -> wildcard_free (d_name (c_device cfg)) ->
  c_sensors cfg = Some sensors -> Forall sensor_wf sensors -> sleeps_for cfg secs ->
  sleeps_forever (main_loop_tree cfg).
Proof.
  intros Hbt Hb Hn Hss Hs Hsl. pfold. apply (turn_until_sleep cfg base sensors Hbt Hb Hn Hss Hs secs Hsl).
  intros l t Ht. left. exact (sleeps_forever_turns cfg base sensors Hbt Hb Hn Hss Hs secs Hsl t l Ht).
Qed.

Lemma main_loop_tree_sleeps_forever_witness : sleeps_forever (main_loop_tree scenario_cfg).
Proof.
  apply (main_loop_tree_sleeps_forever _ "ups" [charge_sensor; voltage_sensor] 30%Z).
  - reflexivity.
  - split; reflexivity.
  - split; reflexivity.
  - reflexivity.
  - repeat apply Forall_cons_2; try apply Forall_nil_2;
      (split; [eexists; split; [reflexivity | split; reflexivity] | eexists; reflexivity]).
  - by apply sleeps_for_default.
Defined.

End LoopTree.
